(** * internshipReady: the cleaning, query, statistics and outlier engine

    A shallow embedding of [src/api/app.py]: the one-shot z-score cleaning of
    [load_and_clean_data], and the read-only handlers [observations],
    [stats_endpoint], [outliers] and [summary]; of the cleaning of the batch
    script [src/etl.py]; and of the request and the map zoom of the dashboard
    [src/client/app.py].

    Numbers.  The program computes with IEEE doubles through numpy, pandas and
    scipy.  Its arithmetic is read twice here.
    - Exactly.  A double is the rational ([Q]) it stands for; the
      not-a-number value is explicit ([None] in [float], [SNaN] in [surd]); a
      square root is kept symbolically ([Sqrt q] stands for the real number
      sqrt q); no operation rounds, overflows or underflows.  The statements
      made in this reading rest on the order of the values and on the shape
      of the data: which rows are dropped for a missing value, what is
      counted, which records a page or a report holds.
    - In double precision ([Binary64]).  The cleaning pass and the statistics
      with binary64 operations, each rounded to nearest.  The statements on
      the threshold 3.0 and on the two standard deviations are made in this
      reading: at a threshold the rounding decides ([rounding_at_the_threshold]).
    [ingest] is what the two readings of the cleaning pass share.

    Library calls are modelled by their documented behaviour:
    - [pandas.read_csv]: the rows are labelled 0, 1, 2, ...; a cell is a
      number or missing; the columns of a source without rows have type
      [object];
    - [scipy.stats.zscore]: mean and standard deviation with [ddof = 0];
      a constant input gives nan for every element;
    - [pandas.Series.quantile]: linear interpolation between order statistics
      (numpy's [_lerp] in double precision), nan on an empty series;
    - [pandas.DataFrame.describe]: count, mean, sample std ([ddof = 1]), min,
      quartiles and max of a numeric column, all nan but the count on an
      empty one; no 'mean' row for [object] columns;
    - boolean indexing and [dropna] keep the index labels of the rows they
      keep; [iloc] selects by position;
    - mongomock cursors: [skip] and [limit] are applied as the list slices
      [results[skip:]] and [results[:abs(limit)]], a limit of 0 meaning no
      limit; a bound of another type than the value it is compared with
      matches nothing;
    - [flask.jsonify]: raises on a timestamp that is NaT, writes nan as NaN. *)

From Stdlib Require Import String.
From Stdlib Require Import List ZArith QArith Qround Qabs Bool Lia.
From Stdlib Require Import Sorting.Mergesort Sorting.Sorted Permutation Orders.
From Stdlib Require Import Reals Qreals Psatz.
From Stdlib Require Floats.
Import ListNotations.

Open Scope Q_scope.

(** ** Doubles, read exactly *)

(** A double that may be nan. *)
Definition float := option Q.

Definition nan : float := None.

Definition fadd (a b : float) : float :=
match a, b with Some x, Some y => Some (x + y) | _, _ => None end.

Definition fsub (a b : float) : float :=
match a, b with Some x, Some y => Some (x - y) | _, _ => None end.

Definition fmul (a b : float) : float :=
match a, b with Some x, Some y => Some (x * y) | _, _ => None end.

Definition Qlt_bool (a b : Q) : bool := negb (Qle_bool b a).

(** [a < b] and [a > b] on doubles: false as soon as one side is nan. *)
Definition flt (a b : float) : bool :=
match a, b with Some x, Some y => Qlt_bool x y | _, _ => false end.

Definition fgt (a b : float) : bool := flt b a.

(** A non-negative double known by its square: the result of [np.sqrt],
    [np.std] or [np.abs] of a quotient by a standard deviation. *)
Inductive surd : Type :=
| SNaN : surd
| Sqrt (q : Q) : surd.

(** [s < c] for a surd [s] and a finite double [c]. *)
Definition surd_lt (s : surd) (c : Q) : bool :=
match s with
| SNaN => false
| Sqrt q => Qlt_bool 0 c && Qlt_bool q (c * c)
end.

(** [s > c]. *)
Definition surd_gt (s : surd) (c : Q) : bool :=
match s with
| SNaN => false
| Sqrt q => Qlt_bool c 0 || Qlt_bool (c * c) q
end.

(** ** numpy: sums, means, standard deviations *)

Definition Qsum (l : list Q) : Q := fold_right Qplus 0 l.

Definition Qlen (l : list Q) : Q := inject_Z (Z.of_nat (length l)).

Definition mean (l : list Q) : Q := Qsum l / Qlen l.

(** Sum of the squared deviations from the mean. *)
Definition sq_dev (l : list Q) : Q :=
Qsum (map (fun x => (x - mean l) * (x - mean l)) l).

(** Variance with [ddof] delta degrees of freedom (denominator [n - ddof]). *)
Definition var (ddof : nat) (l : list Q) : Q :=
sq_dev l / inject_Z (Z.of_nat (length l) - Z.of_nat ddof).

(** [np.std(a, ddof)] and [Series.std()]: nan unless [n > ddof]. *)
Definition std (ddof : nat) (l : list Q) : surd :=
if (length l <=? ddof)%nat then SNaN else Sqrt (var ddof l).

(** ** scipy.stats.zscore *)

(** [np.abs(stats.zscore(a))] at an element [x] of [a]: the deviation from
    the mean over the population standard deviation ([ddof = 0]), in
    magnitude; nan for every element when [a] is constant. *)
Definition zscore_abs (a : list Q) (x : Q) : surd :=
match std 0 a with
| SNaN => SNaN
| Sqrt v =>
    if Qeq_bool v 0 then SNaN
    else Sqrt ((x - mean a) * (x - mean a) / v)
end.

(** The signed z-score of [x] for a given variance, as a real number. *)
Definition zscore_R (mu v x : Q) : R :=
((Q2R x - Q2R mu) / sqrt (Q2R v))%R.

(** ** pandas.Series.quantile *)

Module QOrder <: TotalLeBool.
Definition t := Q.
Definition leb := Qle_bool.
Lemma leb_total : forall a1 a2, leb a1 a2 = true \/ leb a2 a1 = true.
Proof.
  intros a b. unfold leb. rewrite !Qle_bool_iff.
  destruct (Qlt_le_dec a b); [left; apply Qlt_le_weak|right]; assumption.
Qed.
End QOrder.

Module QSort := Sort QOrder.

(** Linear interpolation at the virtual index [(n - 1) * q] of the sorted
    values. *)
Definition interpolate (v : list Q) (q : Q) : Q :=
let h := inject_Z (Z.of_nat (length v) - 1) * q in
let lo := Z.to_nat (Qfloor h) in
let hi := Nat.min (S lo) (length v - 1) in
nth lo v 0 + (h - inject_Z (Qfloor h)) * (nth hi v 0 - nth lo v 0).

Definition quantile (data : list Q) (q : Q) : float :=
match data with
| [] => nan
| _ => Some (interpolate (QSort.sort data) q)
end.

(** ** Observations and frames *)

Inductive column : Type :=
| timestamp | latitude | longitude | temperature | salinity | odo.

Definition column_eqb (a b : column) : bool :=
match a, b with
| timestamp, timestamp | latitude, latitude | longitude, longitude
| temperature, temperature | salinity, salinity | odo, odo => true
| _, _ => false
end.

Definition column_name (c : column) : string :=
match c with
| timestamp => "timestamp"
| latitude => "latitude"
| longitude => "longitude"
| temperature => "temperature"
| salinity => "salinity"
| odo => "odo"
end.

(** One row.  A timestamp is held as its ISO-8601 text ([None] is NaT); a
    missing numeric cell is nan. *)
Record row : Type := mkRow {
  r_timestamp : option string;
  r_latitude : float;
  r_longitude : float;
  r_temperature : float;
  r_salinity : float;
  r_odo : float
}.

(** The numeric cell of a row in a float column. *)
Definition cell (c : column) (r : row) : float :=
match c with
| timestamp => nan
| latitude => r_latitude r
| longitude => r_longitude r
| temperature => r_temperature r
| salinity => r_salinity r
| odo => r_odo r
end.

(** The type pandas gives the temperature, salinity and odo columns when it
    reads the source: [float64] when there is a row to infer it from (the
    cells are numbers or missing), [object] for a source that has a header
    and no row. *)
Inductive dtype : Type := float64 | object.

(** A pandas DataFrame: its columns, its rows with their index labels, and
    the type of its numeric columns. *)
Record DataFrame : Type := Frame {
  columns : list column;
  rows : list (nat * row);
  numeric_dtype : dtype
}.

(** A frame of [float64] columns. *)
Definition mkFrame (cols : list column) (rs : list (nat * row)) : DataFrame :=
Frame cols rs float64.

Definition notna (x : float) : bool :=
match x with Some _ => true | None => false end.

Definition has_column (c : column) (cols : list column) : bool :=
existsb (column_eqb c) cols.

Definition len (df : DataFrame) : nat := length (rows df).

(** [df.dropna(subset=cols)]: the rows with a value in every column of
    [cols], labels kept. *)
Definition dropna (cols : list column) (df : DataFrame) : DataFrame :=
Frame (columns df)
  (filter (fun lr => forallb (fun c => notna (cell c (snd lr))) cols)
     (rows df))
  (numeric_dtype df).

(** [df[c].dropna()]: the labelled non-missing values of a column. *)
Definition series (c : column) (df : DataFrame) : list (nat * Q) :=
flat_map (fun lr => match cell c (snd lr) with
                    | Some x => [(fst lr, x)]
                    | None => []
                    end) (rows df).

Definition values (s : list (nat * Q)) : list Q := map snd s.

(** [df.iloc[positions]]: selection by position; an out-of-bounds position
    raises IndexError. *)
Fixpoint iloc (rs : list (nat * row)) (positions : list nat)
  : option (list (nat * row)) :=
match positions with
| [] => Some []
| p :: ps =>
    match nth_error rs p, iloc rs ps with
    | Some r, Some out => Some (r :: out)
    | _, _ => None
    end
end.

(** ** Ingestion: [load_and_clean_data] *)

Definition required_columns : list column :=
[timestamp; latitude; longitude; temperature; salinity; odo].

Definition numeric_columns : list column := [temperature; salinity; odo].

(** The frame [pd.read_csv] returns, after the renaming of its columns and
    the construction of the timestamp column (lines 30 to 53): the rows are
    labelled 0, 1, 2, ... in source order.  [cols] are the float columns the
    source has; a source row carries the timestamp built for it. *)
Definition read_csv (cols : list column) (rs : list row) : DataFrame :=
Frame (timestamp :: cols) (combine (seq 0 (length rs)) rs)
  (match rs with [] => object | _ :: _ => float64 end).

(** A row restricted to the columns of a frame: a column the frame does
    not have holds nothing. *)
Definition restrict (cols : list column) (r : row) : row :=
let keep c := if has_column c cols then cell c r else nan in
mkRow (if has_column timestamp cols then r_timestamp r else None)
  (keep latitude) (keep longitude) (keep temperature) (keep salinity)
  (keep odo).

(** [df[cols]]. *)
Definition select (cols : list column) (df : DataFrame) : DataFrame :=
Frame cols (map (fun lr => (fst lr, restrict cols (snd lr))) (rows df))
  (numeric_dtype df).

(** One row of [(np.abs(stats.zscore(df[cols])) < 3.0).all(axis=1)]: the
    z-scores are taken column by column over the rows of [df]. *)
Definition zscore_mask (cols : list column) (df : DataFrame) (r : row) : bool :=
forallb (fun c =>
           match cell c r with
           | Some x => surd_lt (zscore_abs (values (series c df)) x) 3
           | None => false
           end) cols.

(** The module's globals, and the mongomock collection. *)
Record state : Type := mkState {
  cleaned_df : option DataFrame;
  original_count : Z;
  removed_count : Z;
  collection : list row
}.

Definition initial_state : state := mkState None 0%Z 0%Z [].

(** [cleaned_df.to_dict('records')], as inserted in the collection. *)
Definition to_dict_records (df : DataFrame) : list row := map snd (rows df).

(** [df[mask]]: the rows the mask holds on, labels kept. *)
Definition boolean_index (mask : row -> bool) (df : DataFrame) : DataFrame :=
Frame (columns df) (filter (fun lr => mask (snd lr)) (rows df))
  (numeric_dtype df).

Definition available_columns (df : DataFrame) : list column :=
filter (fun c => has_column c (columns df)) required_columns.

Definition numeric_available (df : DataFrame) : list column :=
filter (fun c => has_column c (columns df)) numeric_columns.

Definition load_and_clean_data (cols : list column) (rs : list row) : state :=
let df := read_csv cols rs in
let original := Z.of_nat (len df) in
let df := select (available_columns df) df in
let numeric := numeric_available df in
let df := dropna numeric df in
let cleaned := boolean_index (zscore_mask numeric df) df in
mkState (Some cleaned) original (original - Z.of_nat (len cleaned))%Z
  (to_dict_records cleaned).

(** The frame the z-scores of the cleaning pass are computed over: the rows
    that survive the required-field drop. *)
Definition after_dropna (cols : list column) (rs : list row) : DataFrame :=
let df := read_csv cols rs in
let df := select (available_columns df) df in
dropna (numeric_available df) df.

(** ** Handlers *)

Inductive response (A : Type) : Type :=
| Ok (body : A)
| Error (status : Z) (message : string)
| Unmodelled.

Arguments Ok {A} body.
Arguments Error {A} status message.
Arguments Unmodelled {A}.

(** [request.args.get(key, default=d, type=...)]: [None] is a key that is
    absent or whose text does not convert. *)
Definition args_get {A : Type} (arg : option A) (d : A) : A :=
match arg with Some v => v | None => d end.

(** *** [observations] *)

Record obs_args : Type := mkObsArgs {
  a_start : option string;
  a_end : option string;
  a_min_temp : option Q;
  a_max_temp : option Q;
  a_min_sal : option Q;
  a_max_sal : option Q;
  a_min_odo : option Q;
  a_max_odo : option Q;
  a_limit : option Z;
  a_skip : option Z
}.

(** A MongoDB range document [{'$gte': lo, '$lte': hi}]. *)
Record bounds (A : Type) : Type := mkBounds {
  gte : option A;
  lte : option A
}.

Arguments mkBounds {A} gte lte.
Arguments gte {A} b.
Arguments lte {A} b.

Record query : Type := mkQuery {
  q_timestamp : option (bounds string);
  q_temperature : option (bounds Q);
  q_salinity : option (bounds Q);
  q_odo : option (bounds Q)
}.

(** Python truth of an optional string: absent and empty are false. *)
Definition truthy (s : option string) : bool :=
match s with
| Some EmptyString => false
| Some _ => true
| None => false
end.

Definition date_filter (start end_ : option string) : option (bounds string) :=
if truthy start || truthy end_
then Some (mkBounds (if truthy start then start else None)
                    (if truthy end_ then end_ else None))
else None.

Definition range_filter (lo hi : option Q) : option (bounds Q) :=
match lo, hi with
| None, None => None
| _, _ => Some (mkBounds lo hi)
end.

Definition build_query (a : obs_args) : query :=
mkQuery (date_filter (a_start a) (a_end a))
  (range_filter (a_min_temp a) (a_max_temp a))
  (range_filter (a_min_sal a) (a_max_sal a))
  (range_filter (a_min_odo a) (a_max_odo a)).

Definition in_bounds {A B : Type} (le : A -> B -> bool) (ge : A -> B -> bool)
  (f : option (bounds A)) (x : option B) : bool :=
match f with
| None => true
| Some b =>
    match x with
    | None => false
    | Some v =>
        match gte b with Some lo => le lo v | None => true end
        && match lte b with Some hi => ge hi v | None => true end
    end
end.

Definition matches (q : query) (doc : row) : bool :=
in_bounds String.leb (fun hi v => String.leb v hi) (q_timestamp q) (r_timestamp doc)
&& in_bounds Qle_bool (fun hi v => Qle_bool v hi) (q_temperature q) (r_temperature doc)
&& in_bounds Qle_bool (fun hi v => Qle_bool v hi) (q_salinity q) (r_salinity doc)
&& in_bounds Qle_bool (fun hi v => Qle_bool v hi) (q_odo q) (r_odo doc).

(** Python's [l[s:]] and [l[:e]]. *)
Definition slice_from {A : Type} (s : Z) (l : list A) : list A :=
if (0 <=? s)%Z then skipn (Z.to_nat s) l
else skipn (length l - Z.to_nat (- s)) l.

Definition slice_to {A : Type} (e : Z) (l : list A) : list A :=
if (0 <=? e)%Z then firstn (Z.to_nat e) l
else firstn (length l - Z.to_nat (- e)) l.

(** [list(collection.find(q).skip(skip).limit(limit))] over the documents
    that match. *)
Definition cursor {A : Type} (skip limit : Z) (results : list A) : list A :=
let results := slice_from skip results in
if (limit =? 0)%Z then results else slice_to (Z.abs limit) results.

Definition hard_limit : Z := 1000.

Definition effective_limit (a : obs_args) : Z :=
Z.min (args_get (a_limit a) 100%Z) hard_limit.

Definition effective_skip (a : obs_args) : Z := args_get (a_skip a) 0%Z.

Record page : Type := mkPage {
  count : nat;
  returned : nat;
  items : list row
}.

(** [jsonify] on a record: a timestamp that is NaT (a date and time
    [pd.to_datetime] could not parse, left as it is by lines 88 and 250) is
    no JSON value and makes it raise; a nan in a float field is written as
    NaN. *)
Definition serializable (r : row) : bool :=
match r_timestamp r with Some _ => true | None => false end.

(** The text of the exception [jsonify] raises on NaT; no statement depends
    on it. *)
Definition not_serializable : string := "NaTType does not support timetuple".

(** The handler: whatever is raised between the query and the answer ends
    in the [except] clause, with status 500. *)
Definition observations (st : state) (a : obs_args) : response page :=
let limit := effective_limit a in
let skip := effective_skip a in
let q := build_query a in
let found := filter (matches q) (collection st) in
let items := cursor skip limit found in
let total_count := length found in
if forallb serializable items
then Ok (mkPage total_count (length items) items)
else Error 500 not_serializable.

(** *** [stats_endpoint] *)

Record col_stats : Type := mkStats {
  s_count : Z;
  s_mean : float;
  s_std : surd;
  s_min : float;
  s_p25 : float;
  s_p50 : float;
  s_p75 : float;
  s_max : float
}.

Definition Qmin_list (l : list Q) : float :=
match l with
| [] => nan
| x :: l' => Some (fold_left (fun m y => if Qle_bool m y then m else y) l' x)
end.

Definition Qmax_list (l : list Q) : float :=
match l with
| [] => nan
| x :: l' => Some (fold_left (fun m y => if Qle_bool y m then m else y) l' x)
end.

(** One column of [df.describe(percentiles=[.25, .5, .75])]. *)
Definition describe (data : list Q) : col_stats :=
mkStats (Z.of_nat (length data))
  (match data with [] => nan | _ => Some (mean data) end)
  (std 1 data)
  (Qmin_list data)
  (quantile data (1 # 4)) (quantile data (1 # 2)) (quantile data (3 # 4))
  (Qmax_list data).

(** The handler.  On [object] columns [describe] gives count, unique, top
    and freq: the lookup of its 'mean' row raises KeyError, which the
    [except] clause answers with status 500. *)
Definition stats_endpoint (st : state) : response (list (column * col_stats)) :=
match cleaned_df st with
| None => Error 500 "Data not loaded"
| Some df =>
    match numeric_available df with
    | [] => Error 500 "No numeric columns available"
    | available =>
        match numeric_dtype df with
        | object => Error 500 "'mean'"
        | float64 =>
            Ok (map (fun c => (c, describe (values (series c df)))) available)
        end
    end
end.

(** *** [outliers] *)

Record outlier_args : Type := mkOutlierArgs {
  o_field : option string;
  o_method : option string;
  o_k : option Q
}.

Record outlier_report : Type := mkReport {
  rep_method : string;
  rep_field : string;
  rep_k : Q;
  outlier_count : nat;
  rep_outliers : list row
}.

Definition default_k : Q := 3 # 2.

Definition find_column (name : string) (cols : list column) : option column :=
find (fun c => String.eqb (column_name c) name) cols.

(** The IQR mask on one value. *)
Definition iqr_mask (data : list Q) (k : Q) (x : Q) : bool :=
let Q1 := quantile data (1 # 4) in
let Q3 := quantile data (3 # 4) in
let IQR := fsub Q3 Q1 in
let lower_bound := fsub Q1 (fmul (Some k) IQR) in
let upper_bound := fadd Q3 (fmul (Some k) IQR) in
flt (Some x) lower_bound || fgt (Some x) upper_bound.

(** The z-score mask on one value. *)
Definition zscore_outlier_mask (data : list Q) (k : Q) (x : Q) : bool :=
surd_gt (zscore_abs data x) k.

(** [data[outlier_mask].index.tolist()]: the labels of the flagged values. *)
Definition flagged (mask : Q -> bool) (data : list (nat * Q)) : list nat :=
map fst (filter (fun lx => mask (snd lx)) data).

(** The mask of a method, [None] for a method that is neither 'iqr' nor
    'zscore'. *)
Definition outlier_mask (method : string) (data : list Q) (k : Q)
  : option (Q -> bool) :=
if String.eqb method "iqr" then Some (iqr_mask data k)
else if String.eqb method "zscore" then Some (zscore_outlier_mask data k)
else None.

(** [outlier_indices]: the labels the handler computes. *)
Definition outlier_indices (method : string) (k : Q) (data : list (nat * Q))
  : option (list nat) :=
option_map (fun mask => flagged mask data) (outlier_mask method (values data) k).

(** The handler.  Arithmetic on the timestamp column (datetimes) is left
    out: a request on that field is [Unmodelled].  A flagged record whose
    timestamp is NaT makes [jsonify] raise, as in [observations].  On a
    frame without rows the two methods flag nothing whatever the type of
    the column, so the type does not enter here. *)
Definition outliers (st : state) (a : outlier_args) : response outlier_report :=
let field := args_get (o_field a) "temperature"%string in
let method := args_get (o_method a) "iqr"%string in
let k := args_get (o_k a) default_k in
match cleaned_df st with
| None => Error 500 "Data not loaded"
| Some df =>
    match find_column field (columns df) with
    | None => Error 400 ("Field '" ++ field ++ "' not found")
    | Some timestamp => Unmodelled
    | Some c =>
        let data := series c df in
        match outlier_indices method k data with
        | None => Error 400 "Method must be 'iqr' or 'zscore'"
        | Some indices =>
            match iloc (rows df) indices with
            | None => Error 500 "positional indexers are out-of-bounds"
            | Some outliers_df =>
                let outliers_list := map snd outliers_df in
                if forallb serializable outliers_list
                then Ok (mkReport method field k (length outliers_list) outliers_list)
                else Error 500 not_serializable
            end
        end
    end
end.

(** *** [summary] *)

Record cleaning_summary : Type := mkSummary {
  original_rows : Z;
  rows_removed : Z;
  rows_remaining : Z;
  cleaning_method : string
}.

Definition summary (st : state) : cleaning_summary :=
mkSummary (original_count st) (removed_count st)
  (match cleaned_df st with Some df => Z.of_nat (len df) | None => 0%Z end)
  "z-score with threshold 3.0".

(** ** The life of the process *)

(** A read request, and what happens to the process: ingestion runs, then
    reads.  No handler assigns a global or writes to the collection, so a
    read leaves the state as it is. *)
Inductive request : Type :=
| GetObservations (a : obs_args)
| GetStats
| GetOutliers (a : outlier_args)
| GetSummary.

Inductive event : Type :=
| Ingest (cols : list column) (rs : list row)
| Read (r : request).

Definition step (st : state) (e : event) : state :=
match e with
| Ingest cols rs => load_and_clean_data cols rs
| Read _ => st
end.

Definition run (es : list event) : state := fold_left step es initial_state.

(** [a] with other pagination arguments. *)
Definition with_paging (a : obs_args) (limit skip : option Z) : obs_args :=
mkObsArgs (a_start a) (a_end a) (a_min_temp a) (a_max_temp a)
  (a_min_sal a) (a_max_sal a) (a_min_odo a) (a_max_odo a) limit skip.

(** ** The batch script [src/etl.py] *)

(** [s <= c] for a surd [s] and a finite double [c]. *)
Definition surd_le (s : surd) (c : Q) : bool :=
match s with
| SNaN => false
| Sqrt q => Qle_bool 0 c && Qle_bool q (c * c)
end.

(** [zscore(column)] in magnitude, with scipy's default
    [nan_policy='propagate']: one missing value in the column makes the
    mean, and with it every z-score of the column, nan. *)
Definition zscore_abs_propagate (col : list float) (x : float) : surd :=
if forallb notna col
then match x with
     | Some v =>
         zscore_abs (flat_map (fun y => match y with Some w => [w] | None => [] end) col) v
     | None => SNaN
     end
else SNaN.

Definition etl_columns : list column := [temperature; salinity; odo].

(** One row of [(z.abs() <= 3).all(axis=1)], where
    [z = df[["temperature", "salinity", "odo"]].apply(zscore)]. *)
Definition etl_mask (df : DataFrame) (r : row) : bool :=
forallb (fun c =>
           surd_le (zscore_abs_propagate (map (fun lr => cell c (snd lr)) (rows df))
                      (cell c r)) 3)
  etl_columns.

(** The frame [cleaned_df] of the script; [None] is the KeyError raised when
    the source lacks one of the three columns.  The script neither renames
    nor selects columns, and drops no row for a missing value. *)
Definition etl (cols : list column) (rs : list row) : option DataFrame :=
let df := mkFrame cols (combine (seq 0 (length rs)) rs) in
if forallb (fun c => has_column c cols) etl_columns
then Some (boolean_index (etl_mask df) df)
else None.

(** ** The dashboard [src/client/app.py] *)




(** Python's [max(a, b)] on doubles: [b] when [b > a], else [a]. *)
Definition py_max (a b : float) : float := if fgt b a then b else a.

(** The zoom of the map for the extents of the latitudes and longitudes. *)
Definition zoom_level (lat_range lon_range : float) : Z :=
let coverage := py_max lat_range lon_range in
if flt coverage (Some (5 # 1000)) then 15%Z
else if flt coverage (Some (15 # 1000)) then 14%Z
else if flt coverage (Some (3 # 100)) then 13%Z
else 12%Z.

(** ** The bounds of a request *)

(** A value within the bounds of a request, when one of them is given. *)
Definition satisfies {A : Type} (le : A -> A -> Prop) (lo hi : option A)
  (x : option A) : Prop :=
match lo, hi with
| None, None => True
| _, _ =>
    exists v, x = Some v
              /\ (forall l, lo = Some l -> le l v)
              /\ (forall h, hi = Some h -> le v h)
end.

Definition string_le (s t : string) : Prop := String.leb s t = true.

(** The text of a date bound that counts: absent and empty do not. *)
Definition given (s : option string) : option string :=
if truthy s then s else None.

(** ** The same computations in double precision *)

(** The cleaning pass and the statistics once more, with the arithmetic of
    the program: IEEE binary64, each operation rounded to nearest, ties to
    even (Rocq's primitive floats).  A cell of a row holds the exact value of
    the double that was read; [b64] takes it back to the double.

    The order in which numpy adds up an array depends on its layout in
    memory (pairwise in blocks of 8 along a contiguous axis, one after the
    other else), and pandas may use bottleneck's loops instead: the
    summation is a parameter [sum] of the definitions, and [naive_sum] and
    [pairwise_sum] are the two instances. *)
Module Binary64.

Import PrimFloat.
Local Open Scope float_scope.

(** An integer as a number of the IEEE specification, not yet rounded. *)
Definition Z2SF (z : Z) : SpecFloat.spec_float :=
match z with
| Z0 => SpecFloat.S754_zero false
| Zpos p => SpecFloat.S754_finite false p 0
| Zneg p => SpecFloat.S754_finite true p 0
end.

(** The double nearest to a rational: the quotient of the numerator by the
    denominator, rounded once. *)
Definition b64 (q : Q) : float :=
FloatOps.SF2Prim
  (SpecFloat.SFdiv FloatOps.prec FloatOps.emax
     (Z2SF (Qnum q)) (Z2SF (Zpos (Qden q)))).

(** A count as a double (exact below 2^53). *)
Definition of_count (n : nat) : float := b64 (inject_Z (Z.of_nat n)).

(** *** numpy: the sum of an array *)

(** One value after the other. *)
Definition naive_sum (a : list float) : float := fold_left add a 0.

(** numpy's pairwise summation: fewer than 8 values one after the other; up
    to 128 values in 8 interleaved partial sums that are added as a tree,
    then the values that are left; more values split in two halves, the
    first a multiple of 8. *)
Definition lanes : Type :=
(float * float * float * float * float * float * float * float)%type.

Fixpoint add_blocks (r : lanes) (a : list float) : lanes * list float :=
match a with
| a0 :: a1 :: a2 :: a3 :: a4 :: a5 :: a6 :: a7 :: rest =>
    let '(r0, r1, r2, r3, r4, r5, r6, r7) := r in
    add_blocks (r0 + a0, r1 + a1, r2 + a2, r3 + a3,
                r4 + a4, r5 + a5, r6 + a6, r7 + a7) rest
| _ => (r, a)
end.

Definition block_sum (a : list float) : float :=
match a with
| a0 :: a1 :: a2 :: a3 :: a4 :: a5 :: a6 :: a7 :: rest =>
    let '((r0, r1, r2, r3, r4, r5, r6, r7), tail) :=
      add_blocks (a0, a1, a2, a3, a4, a5, a6, a7) rest in
    fold_left add tail (((r0 + r1) + (r2 + r3)) + ((r4 + r5) + (r6 + r7)))
| _ => fold_left add a 0
end.

(** [fuel] bounds the depth of the recursion; the length of the array is
    enough ([pairwise_fuel]). *)
Fixpoint pairwise (fuel : nat) (a : list float) : float :=
match fuel with
| O => block_sum a
| S fuel' =>
    if (length a <=? 128)%nat then block_sum a
    else
      let n2 := (length a / 2)%nat in
      let n2 := (n2 - n2 mod 8)%nat in
      pairwise fuel' (firstn n2 a) + pairwise fuel' (skipn n2 a)
end.

Definition pairwise_sum (a : list float) : float := pairwise (length a) a.

Section Summation.

Variable sum : list float -> float.

(** *** numpy: mean and standard deviation *)

(** [a.mean()]. *)
Definition mean (a : list float) : float := sum a / of_count (length a).

(** [a.var(ddof=ddof)]: the squared deviations from the mean, added up and
    divided by [max(n - ddof, 0)]. *)
Definition var (ddof : nat) (a : list float) : float :=
let arrmean := mean a in
let x := map (fun v => v - arrmean) a in
let x := map (fun d => d * d) x in
sum x / of_count (length a - ddof).

(** [a.std(ddof=ddof)]. *)
Definition std (ddof : nat) (a : list float) : float := sqrt (var ddof a).

(** *** scipy.stats.zscore *)

(** [(first == a).all()]: whether all the values equal the first one. *)
Definition isconst (a : list float) : bool :=
match a with
| [] => true
| first :: _ => forallb (fun v => first =? v) a
end.

(** The z-score of the element [v] of [a]: nan for every element when [a]
    is constant, else the deviation from the mean over the standard
    deviation with [ddof = 0]. *)
Definition zscore_at (a : list float) (v : float) : float :=
if isconst a then nan else (v - mean a) / std 0 a.

(** [stats.zscore(a)]. *)
Definition zscore (a : list float) : list float := map (zscore_at a) a.

(** *** Ingestion *)

(** The threshold [3.0] of line 70. *)
Definition threshold : float := 3.

(** The values of a column, as doubles. *)
Definition column_values (c : column) (df : DataFrame) : list float :=
map b64 (values (series c df)).

(** One row of [(np.abs(stats.zscore(df[cols])) < 3.0).all(axis=1)]. *)
Definition zscore_mask (cols : list column) (df : DataFrame) (r : row) : bool :=
forallb (fun c =>
           match cell c r with
           | Some x => abs (zscore_at (column_values c df) (b64 x)) <? threshold
           | None => false
           end) cols.

Definition load_and_clean_data (cols : list column) (rs : list row) : state :=
let df := read_csv cols rs in
let original := Z.of_nat (len df) in
let df := select (available_columns df) df in
let numeric := numeric_available df in
let df := dropna numeric df in
let cleaned := boolean_index (zscore_mask numeric df) df in
mkState (Some cleaned) original (original - Z.of_nat (len cleaned))%Z
  (to_dict_records cleaned).

(** *** pandas: the statistics of [describe] *)

(** [Series.mean()]: nan without values. *)
Definition nanmean (a : list float) : float :=
match a with
| [] => nan
| _ => sum a / of_count (length a)
end.

(** [Series.var(ddof=ddof)]: nan unless [n > ddof], else the squared
    deviations from the average, added up and divided by [n - ddof]. *)
Definition nanvar (ddof : nat) (a : list float) : float :=
if (length a <=? ddof)%nat then nan
else
  let avg := sum a / of_count (length a) in
  let sqr := map (fun v => (avg - v) * (avg - v)) a in
  sum sqr / of_count (length a - ddof).

(** [Series.std(ddof=ddof)]. *)
Definition nanstd (ddof : nat) (a : list float) : float := sqrt (nanvar ddof a).

Definition nanmin (a : list float) : float :=
match a with
| [] => nan
| x :: l => fold_left (fun m y => if y <? m then y else m) l x
end.

Definition nanmax (a : list float) : float :=
match a with
| [] => nan
| x :: l => fold_left (fun m y => if m <? y then y else m) l x
end.

Fixpoint insert (x : float) (l : list float) : list float :=
match l with
| [] => [x]
| y :: l' => if x <=? y then x :: l else y :: insert x l'
end.

Definition sort (l : list float) : list float := fold_right insert [] l.

(** numpy's [_lerp]. *)
Definition lerp (a b t : float) : float :=
let diff_b_a := b - a in
if 0.5 <=? t then b - diff_b_a * (1 - t) else a + diff_b_a * t.

(** [Series.quantile(q)], linear interpolation; the virtual index
    [(n - 1) * q] and its fractional part are exact for the quartiles of
    fewer than 2^51 values. *)
Definition quantile (data : list float) (q : Q) : float :=
match data with
| [] => nan
| _ =>
    let v := sort data in
    let h := (inject_Z (Z.of_nat (length v) - 1) * q)%Q in
    let lo := Z.to_nat (Qfloor h) in
    let hi := Nat.min (S lo) (length v - 1) in
    lerp (nth lo v nan) (nth hi v nan) (b64 (h - inject_Z (Qfloor h)))
end.

Record col_stats : Type := mkStats {
  s_count : Z;
  s_mean : float;
  s_std : float;
  s_min : float;
  s_p25 : float;
  s_p50 : float;
  s_p75 : float;
  s_max : float
}.

(** One column of [df.describe(percentiles=[.25, .5, .75])]. *)
Definition describe (data : list float) : col_stats :=
mkStats (Z.of_nat (length data)) (nanmean data) (nanstd 1 data) (nanmin data)
  (quantile data (1 # 4)) (quantile data (1 # 2)) (quantile data (3 # 4))
  (nanmax data).

Definition stats_endpoint (st : state) : response (list (column * col_stats)) :=
match cleaned_df st with
| None => Error 500 "Data not loaded"
| Some df =>
    match numeric_available df with
    | [] => Error 500 "No numeric columns available"
    | available =>
        match numeric_dtype df with
        | object => Error 500 "'mean'"
        | float64 =>
            Ok (map (fun c => (c, describe (column_values c df))) available)
        end
    end
end.

End Summation.

End Binary64.

(** ** Ingestion, whatever the test *)

(** [load_and_clean_data] with the test on the z-scores left open: what the
    two readings of the arithmetic share. *)
Definition ingest (mask : list column -> DataFrame -> row -> bool)
  (cols : list column) (rs : list row) : state :=
let df := read_csv cols rs in
let original := Z.of_nat (len df) in
let df := select (available_columns df) df in
let numeric := numeric_available df in
let df := dropna numeric df in
let cleaned := boolean_index (mask numeric df) df in
mkState (Some cleaned) original (original - Z.of_nat (len cleaned))%Z
  (to_dict_records cleaned).

(** ** Sample data, and the predicates of the statements *)

(** The statistics of a column without values. *)
Definition empty_stats : col_stats := mkStats 0 nan SNaN nan nan nan nan nan.

(** A source row with a temperature and nothing else. *)
Definition example_doc (t : Q) : row :=
mkRow (Some "2022-10-07T00:00:00"%string) None None (Some t) None None.

Definition no_filter (limit skip : option Z) : obs_args :=
mkObsArgs None None None None None None None None limit skip.

(** The process after the ingestion of three readings; all three are kept. *)
Definition example_store : state :=
load_and_clean_data [temperature] [example_doc 20; example_doc 21; example_doc 22].

(** Eleven readings: nine at 20, one at 21, one at 24. *)
Definition eleven_readings : list row :=
map example_doc [20; 20; 20; 20; 20; 20; 20; 20; 20; 21; 24].

Definition twelve_readings : list row :=
map example_doc [20; 20; 20; 20; 20; 20; 20; 20; 20; 20; 20; 1000].

Definition five_readings : list row := map example_doc [10; 11; 12; 13; 100].

(** A source row with a latitude and without a temperature. *)
Definition missing_reading : row :=
mkRow (Some "2022-10-07T00:00:00"%string) (Some (55 # 2)) None None None None.

Definition six_rows : list row :=
missing_reading :: map example_doc [100; 10; 11; 12; 13].

(** A source row with a temperature and a salinity. *)
Definition two_fields (t s : Q) : row :=
mkRow (Some "2022-10-07T00:00:00"%string) None None (Some t) (Some s) None.

Definition constant_temperature : list row :=
[two_fields 20 30; two_fields 20 31; two_fields 20 32].

(** Whether a mask flags a row, through its value in column [c]. *)
Definition keeps (c : column) (mask : Q -> bool) (lr : nat * row) : bool :=
match cell c (snd lr) with Some x => mask x | None => false end.

(** A column with a single distinct value (or no value at all). *)
Definition constant (l : list Q) : Prop :=
forall x y, In x l -> In y l -> x == y.

(** A column whose standard deviation is zero or undefined. *)
Definition degenerate (a : list Q) : Prop :=
constant a \/ (length a < 2)%nat \/ var 0 a == 0.

(** * Provenance counters *)

Lemma run_reads (st : state) (reads : list request) :
  fold_left step (map Read reads) st = st.
Proof. induction reads as [|r reads IH]; simpl; auto. Qed.

Lemma len_select (cols : list column) (df : DataFrame) :
  len (select cols df) = len df.
Proof. unfold len, select. simpl. apply length_map. Qed.

Lemma len_read_csv (cols : list column) (rs : list row) :
  len (read_csv cols rs) = length rs.
Proof.
  unfold len, read_csv. simpl.
  rewrite length_combine, length_seq. apply Nat.min_id.
Qed.

(** C8. After an ingestion run, and whatever reads follow it, the counters
    satisfy original = removed + remaining, and the original count is the
    number of rows of the frame after the column selection, before any row
    is dropped (which is the number of rows read). *)
Theorem provenance_counts
  (before : list event) (cols : list column) (rs : list row)
  (reads : list request) :
  let st := run (before ++ Ingest cols rs :: map Read reads) in
  let df := read_csv cols rs in
  original_rows (summary st) = (rows_removed (summary st) + rows_remaining (summary st))%Z
  /\ original_count st = Z.of_nat (len (select (available_columns df) df))
  /\ original_count st = Z.of_nat (length rs)
  /\ cleaned_df st = cleaned_df (load_and_clean_data cols rs).
Proof.
  cbv zeta. unfold run. rewrite fold_left_app. simpl fold_left.
  rewrite run_reads. rewrite len_select, len_read_csv.
  unfold summary, load_and_clean_data. simpl.
  rewrite len_read_csv. repeat split. lia.
Qed.

(** * Pagination *)

Lemma forallb_false {A : Type} (f : A -> bool) (l : list A) :
  forallb f l = false -> exists x, In x l /\ f x = false.
Proof.
  induction l as [|a l IH]; simpl; [discriminate|].
  destruct (f a) eqn:E; simpl.
  - intros H. destruct (IH H) as [x [Hx Hf]]. exists x. auto.
  - intros _. exists a. auto.
Qed.

Lemma length_cursor {A : Type} (skip limit : Z) (l : list A) :
  (0 <= skip)%Z -> (1 <= limit)%Z ->
  Z.of_nat (length (cursor skip limit l))
  = (if (skip <? Z.of_nat (length l))%Z
     then Z.min (Z.of_nat (length l) - skip) limit
     else 0)%Z.
Proof.
  intros Hs Hl. unfold cursor, slice_from, slice_to.
  destruct (Z.leb_spec 0 skip); [|lia].
  destruct (Z.eqb_spec limit 0); [lia|].
  destruct (Z.leb_spec 0 (Z.abs limit)); [|lia].
  rewrite length_firstn, length_skipn.
  destruct (Z.ltb_spec skip (Z.of_nat (length l))); lia.
Qed.

Lemma effective_limit_le (a : obs_args) : (effective_limit a <= hard_limit)%Z.
Proof. unfold effective_limit. apply Z.le_min_r. Qed.

(** C5, as stated, fails: with [limit = 0] the cursor puts no bound on the
    page, so all three matching documents come back, where the formula
    gives [min (3 - 0) 0 = 0]. *)
Lemma page_size_limit_zero :
  exists p,
    observations example_store (no_filter (Some 0%Z) (Some 0%Z)) = Ok p
    /\ count p = 3%nat
    /\ returned p = 3%nat
    /\ (0 <? Z.of_nat (count p))%Z = true
    /\ Z.of_nat (returned p) <> Z.min (Z.of_nat (count p) - 0) 0.
Proof. eexists. split; [reflexivity|]. vm_compute. intuition discriminate. Qed.

(** What the handler answers: the page, or status 500 when a record of
    the page cannot be written as JSON. *)
Lemma observations_cases (st : state) (a : obs_args) :
  let found := filter (matches (build_query a)) (collection st) in
  let page := cursor (effective_skip a) (effective_limit a) found in
  (forallb serializable page = true
   /\ observations st a = Ok (mkPage (length found) (length page) page))
  \/ (forallb serializable page = false
      /\ observations st a = Error 500 not_serializable).
Proof.
  cbv zeta. unfold observations.
  destruct (forallb serializable _); [left|right]; split; reflexivity.
Qed.

Lemma observations_Ok (st : state) (a : obs_args) (p : page) :
  observations st a = Ok p ->
  let found := filter (matches (build_query a)) (collection st) in
  let page := cursor (effective_skip a) (effective_limit a) found in
  p = mkPage (length found) (length page) page
  /\ forallb serializable page = true.
Proof.
  intros H. cbv zeta.
  destruct (observations_cases st a) as [[E1 E2]|[E1 E2]];
    rewrite E2 in H; [|discriminate].
  injection H as <-. split; [reflexivity|exact E1].
Qed.

Lemma serializable_timestamp (d : row) :
  serializable d = true <-> r_timestamp d <> None.
Proof.
  unfold serializable. destruct (r_timestamp d); split; congruence.
Qed.

Lemma cursor_incl {A : Type} (skip limit : Z) (l : list A) :
  incl (cursor skip limit l) l.
Proof.
  unfold cursor, slice_from, slice_to. intros x Hx.
  assert (Hskip : forall n, incl (skipn n l) l).
  { intros n y Hy. rewrite <- (firstn_skipn n l). apply in_or_app. right. exact Hy. }
  assert (Hfirst : forall n (m : list A), incl (firstn n m) m).
  { intros n m y Hy. rewrite <- (firstn_skipn n m). apply in_or_app. left. exact Hy. }
  destruct (0 <=? skip)%Z, (limit =? 0)%Z, (0 <=? Z.abs limit)%Z;
    repeat (first [apply Hskip in Hx | apply Hfirst in Hx]); exact Hx.
Qed.

(** A request is answered when every record that matches it has a
    timestamp, whatever the page. *)
Lemma observations_answered (st : state) (a : obs_args) :
  (forall d, In d (filter (matches (build_query a)) (collection st)) ->
             r_timestamp d <> None) ->
  exists p, observations st a = Ok p.
Proof.
  intros H. destruct (observations_cases st a) as [[_ E]|[E _]].
  - eexists. exact E.
  - exfalso. apply forallb_false in E. destruct E as [d [Hd Hs]].
    apply cursor_incl in Hd. apply H in Hd.
    apply serializable_timestamp in Hd. congruence.
Qed.

(** C5, amended. For a non-negative skip and an effective limit of at least
    1: whenever the request is answered, the page holds
    [min (total - skip) limit] documents when [skip < total] and none
    otherwise, where [limit] is the limit after the clamp to 1000, and the
    total is the same in every answer to the same filter, whatever the limit
    and skip.  The request is answered when every matching record has a
    timestamp, and with status 500 when a record of the page has none. *)
Theorem page_size (st : state) (a : obs_args) :
  (0 <= effective_skip a)%Z -> (1 <= effective_limit a)%Z ->
  let found := filter (matches (build_query a)) (collection st) in
  (forall p,
     observations st a = Ok p ->
     Z.of_nat (returned p)
     = (if (effective_skip a <? Z.of_nat (count p))%Z
        then Z.min (Z.of_nat (count p) - effective_skip a) (effective_limit a)
        else 0)%Z
     /\ returned p = length (items p)
     /\ (Z.of_nat (returned p) <= hard_limit)%Z
     /\ count p = length found
     /\ forall limit skip p',
          observations st (with_paging a limit skip) = Ok p' ->
          count p' = count p)
  /\ ((forall d, In d found -> r_timestamp d <> None) ->
      (exists p, observations st a = Ok p)
      /\ forall limit skip,
           exists p', observations st (with_paging a limit skip) = Ok p')
  /\ ((exists d, In d (cursor (effective_skip a) (effective_limit a) found)
                 /\ r_timestamp d = None) ->
      exists message, observations st a = Error 500 message).
Proof.
  intros Hs Hl. cbv zeta. split; [|split].
  - intros p Hp. apply observations_Ok in Hp. cbv zeta in Hp.
    destruct Hp as [-> _]. cbn [returned count items].
    pose proof (length_cursor (effective_skip a) (effective_limit a)
                  (filter (matches (build_query a)) (collection st)) Hs Hl) as Hlen.
    split; [exact Hlen|]. split; [reflexivity|]. split.
    { rewrite Hlen. pose proof (effective_limit_le a).
      destruct (effective_skip a <? _)%Z; [lia|unfold hard_limit; lia]. }
    split; [reflexivity|].
    intros limit skip p' Hp'. apply observations_Ok in Hp'. cbv zeta in Hp'.
    destruct Hp' as [-> _]. reflexivity.
  - intros H. split; [apply observations_answered, H|].
    intros limit skip. apply observations_answered. exact H.
  - intros [d [Hd Hn]].
    destruct (observations_cases st a) as [[E _]|[_ E]]; [|eexists; exact E].
    exfalso. rewrite forallb_forall in E. specialize (E d Hd).
    apply serializable_timestamp in E. congruence.
Qed.

(** With [limit = 0] the whole collection comes back, whatever its size. *)
Lemma limit_zero_returns_all (st : state) :
  forallb serializable (collection st) = true ->
  observations st (no_filter (Some 0%Z) None)
  = Ok (mkPage (length (collection st)) (length (collection st)) (collection st)).
Proof.
  assert (E : forall l : list row,
             filter (matches (build_query (no_filter (Some 0%Z) None))) l = l).
  { induction l as [|d l IH]; [reflexivity|]. simpl. f_equal. exact IH. }
  intros H. unfold observations. simpl. rewrite E.
  unfold cursor, slice_from. simpl. rewrite H. reflexivity.
Qed.

Lemma page_size_witness :
  exists p,
    observations example_store (no_filter (Some 2%Z) (Some 1%Z)) = Ok p
    /\ returned p = 2%nat /\ count p = 3%nat.
Proof.
  destruct (page_size example_store (no_filter (Some 2%Z) (Some 1%Z)))
    as [Hsize [Hanswered _]]; [vm_compute; discriminate | vm_compute; discriminate |].
  destruct Hanswered as [[p Hp] _].
  { intros d Hd. vm_compute in Hd.
    destruct Hd as [<-|[<-|[<-|[]]]]; discriminate. }
  exists p. split; [exact Hp|].
  destruct (Hsize p Hp) as [Hr [_ [_ [Hc _]]]].
  split.
  - apply Nat2Z.inj. rewrite Hr, Hc. reflexivity.
  - rewrite Hc. reflexivity.
Defined.

(** C6, as stated, fails: a negative skip is handed to the cursor as it is,
    which then slices from the end of the matches. *)
Lemma negative_skip_not_zero :
  let a := no_filter None (Some (-1)%Z) in
  effective_skip a = (-1)%Z
  /\ effective_skip a <> 0%Z
  /\ observations example_store a = Ok (mkPage 3 1 [example_doc 22])
  /\ observations example_store a
     <> observations example_store (no_filter None (Some 0%Z)).
Proof.
  cbv zeta. split; [reflexivity|]. split; [discriminate|].
  split; [reflexivity|]. vm_compute. discriminate.
Qed.

Lemma length_cursor_le {A : Type} (skip limit : Z) (l : list A) :
  (1 <= limit)%Z -> (Z.of_nat (length (cursor skip limit l)) <= limit)%Z.
Proof.
  intros Hl. unfold cursor, slice_to.
  destruct (Z.eqb_spec limit 0); [lia|].
  destruct (Z.leb_spec 0 (Z.abs limit)); [|lia].
  rewrite length_firstn. lia.
Qed.

(** C6, amended. What the handler hands to the store, and gets back as its
    page, is the slice at [skip] and [limit] of the matching documents, where
    [limit] is the smaller of the client's value (100 when there is none)
    and 1000, and [skip] is the client's value as given, negative or not (0
    when there is none).  So the limit handed over never exceeds 1000, and a
    page answered for a limit of at least 1 holds at most 1000 documents; a
    limit of 0 or below is no such bound.  A request without skip is
    answered as the one with skip 0. *)
Theorem limit_clamp_and_skip_default (st : state) (a : obs_args) :
  let found := filter (matches (build_query a)) (collection st) in
  let limit := Z.min (match a_limit a with Some l => l | None => 100 end) 1000 in
  let skip := match a_skip a with Some s => s | None => 0%Z end in
  (limit <= 1000)%Z
  /\ (forall p,
        observations st a = Ok p ->
        items p = cursor skip limit found
        /\ returned p = length (items p)
        /\ ((1 <= limit)%Z -> (returned p <= 1000)%nat))
  /\ (forall status message,
        observations st a = Error status message ->
        status = 500%Z
        /\ exists d, In d (cursor skip limit found) /\ r_timestamp d = None)
  /\ observations st (with_paging a (a_limit a) None)
     = observations st (with_paging a (a_limit a) (Some 0%Z)).
Proof.
  cbv zeta. split; [apply Z.le_min_r|]. split; [|split].
  - intros p Hp. apply observations_Ok in Hp. cbv zeta in Hp.
    destruct Hp as [-> _]. cbn [items returned].
    split; [reflexivity|]. split; [reflexivity|]. intros Hl.
    pose proof (length_cursor_le (effective_skip a) (effective_limit a)
                  (filter (matches (build_query a)) (collection st)) Hl) as H.
    pose proof (effective_limit_le a). unfold hard_limit in *. lia.
  - intros status message H.
    destruct (observations_cases st a) as [[_ E]|[E1 E2]];
      rewrite ?E, ?E2 in H; [discriminate|].
    injection H as <- _. split; [reflexivity|].
    apply forallb_false in E1. destruct E1 as [d [Hd Hs]].
    exists d. split; [exact Hd|].
    unfold serializable in Hs. destruct (r_timestamp d); [discriminate|reflexivity].
  - reflexivity.
Qed.

(** * Summary statistics *)

(** C7, as stated, fails: on a store that has the temperature column and no
    record (here the only source row has no temperature and is dropped) the
    handler answers with a statistics record, count 0 and nan elsewhere, and
    not with an error. *)
Lemma stats_on_empty_store :
  let st := load_and_clean_data [latitude; temperature] [missing_reading] in
  cleaned_df st = Some (mkFrame [timestamp; latitude; temperature] [])
  /\ collection st = []
  /\ stats_endpoint st = Ok [(temperature, empty_stats)]
  /\ forall status message, stats_endpoint st <> Error status message.
Proof.
  cbv zeta. repeat split. intros status message. vm_compute. discriminate.
Qed.

(** A source with a header and no row: the frame has the columns, no
    record, and columns of type [object]. *)
Lemma header_only_source (cols : list column) :
  exists df,
    cleaned_df (load_and_clean_data cols []) = Some df
    /\ rows df = [] /\ numeric_dtype df = object
    /\ collection (load_and_clean_data cols []) = [].
Proof. eexists. repeat split. Qed.

(** A source with a row gives [float64] columns, whatever is dropped. *)
Lemma source_with_rows (cols : list column) (r : row) (rs : list row) :
  exists df,
    cleaned_df (load_and_clean_data cols (r :: rs)) = Some df
    /\ numeric_dtype df = float64.
Proof. eexists. split; reflexivity. Qed.

(** C7, amended. Without loaded data, or with none of the three numeric
    columns, the handler answers with an explicit error.  On a store with a
    numeric column and no record it answers with an error (status 500) when
    the columns have no numeric type, which is the case of a source without
    rows; when they have one (rows were read, and all were dropped), it
    answers, for each such column, with count 0 and nan for every other
    statistic: no statistic but the count is reported as zero. *)
Theorem stats_no_data (st : state) :
  (cleaned_df st = None ->
   stats_endpoint st = Error 500 "Data not loaded")
  /\ (forall df, cleaned_df st = Some df -> numeric_available df = [] ->
      stats_endpoint st = Error 500 "No numeric columns available")
  /\ (forall df, cleaned_df st = Some df -> numeric_available df <> [] ->
      numeric_dtype df = object ->
      stats_endpoint st = Error 500 "'mean'")
  /\ (forall df, cleaned_df st = Some df -> numeric_available df <> [] ->
      numeric_dtype df = float64 -> rows df = [] ->
      stats_endpoint st
      = Ok (map (fun c => (c, empty_stats)) (numeric_available df))).
Proof.
  unfold stats_endpoint. split; [intros ->; reflexivity|]. split; [|split].
  - intros df -> ->. reflexivity.
  - intros df -> Hcols ->.
    destruct (numeric_available df) as [|c cs]; [congruence|reflexivity].
  - intros df -> Hcols -> Hrows.
    destruct (numeric_available df) as [|c cs] eqn:E; [congruence|].
    f_equal. apply map_ext. intros c'. f_equal.
    unfold series. rewrite Hrows. reflexivity.
Qed.

Lemma stats_no_data_witness :
  stats_endpoint initial_state = Error 500 "Data not loaded"
  /\ stats_endpoint (load_and_clean_data [latitude] [missing_reading])
     = Error 500 "No numeric columns available"
  /\ stats_endpoint (load_and_clean_data [latitude; odo] [])
     = Error 500 "'mean'"
  /\ stats_endpoint (load_and_clean_data [latitude; odo] [missing_reading])
     = Ok [(odo, empty_stats)].
Proof.
  split; [|split; [|split]].
  - apply (proj1 (stats_no_data initial_state)). reflexivity.
  - apply (proj1 (proj2 (stats_no_data
             (load_and_clean_data [latitude] [missing_reading])))
             (mkFrame [timestamp; latitude] [(0%nat, missing_reading)]));
      reflexivity.
  - apply (proj1 (proj2 (proj2 (stats_no_data
             (load_and_clean_data [latitude; odo] []))))
             (Frame [timestamp; latitude; odo] [] object));
      [reflexivity| |reflexivity].
    vm_compute. discriminate.
  - apply (proj2 (proj2 (proj2 (stats_no_data
             (load_and_clean_data [latitude; odo] [missing_reading]))))
             (mkFrame [timestamp; latitude; odo] []));
      [reflexivity| |reflexivity|reflexivity].
    vm_compute. discriminate.
Defined.

(** * Comparisons of surds, in the real numbers *)

Lemma Qlt_bool_iff (a b : Q) : Qlt_bool a b = true <-> a < b.
Proof.
  unfold Qlt_bool. rewrite negb_true_iff.
  split.
  - intros H. apply Qnot_le_lt. intros Hle. apply Qle_bool_iff in Hle. congruence.
  - intros H. destruct (Qle_bool b a) eqn:E; [|reflexivity].
    apply Qle_bool_iff in E. exfalso. apply (Qlt_not_le _ _ H E).
Qed.

Lemma Q2R_0 : Q2R 0 = 0%R.
Proof. unfold Q2R. simpl. lra. Qed.

Lemma Q2R_nonneg (q : Q) : 0 <= q -> (0 <= Q2R q)%R.
Proof. intros H. rewrite <- Q2R_0. apply Qle_Rle. exact H. Qed.

Lemma surd_lt_spec (q c : Q) :
  0 <= q -> (surd_lt (Sqrt q) c = true <-> (sqrt (Q2R q) < Q2R c)%R).
Proof.
  intros Hq. simpl. rewrite andb_true_iff, !Qlt_bool_iff.
  pose proof (Q2R_nonneg q Hq) as HQ.
  split.
  - intros [Hc Hlt]. apply Qlt_Rlt in Hc, Hlt.
    rewrite Q2R_0 in Hc. rewrite Q2R_mult in Hlt.
    rewrite <- (sqrt_square (Q2R c)) by lra.
    apply sqrt_lt_1; nra.
  - intros H. pose proof (sqrt_pos (Q2R q)) as Hs.
    pose proof (sqrt_sqrt (Q2R q) HQ) as Hsq.
    split; apply Rlt_Qlt; rewrite ?Q2R_0, ?Q2R_mult; nra.
Qed.

Lemma surd_gt_spec (q c : Q) :
  0 <= q -> (surd_gt (Sqrt q) c = true <-> (sqrt (Q2R q) > Q2R c)%R).
Proof.
  intros Hq. simpl. rewrite orb_true_iff, !Qlt_bool_iff.
  pose proof (Q2R_nonneg q Hq) as HQ.
  pose proof (sqrt_pos (Q2R q)) as Hs.
  pose proof (sqrt_sqrt (Q2R q) HQ) as Hsq.
  split.
  - intros [Hc|Hlt].
    + apply Qlt_Rlt in Hc. rewrite Q2R_0 in Hc. lra.
    + apply Qlt_Rlt in Hlt. rewrite Q2R_mult in Hlt.
      destruct (Rlt_le_dec (Q2R c) 0); [lra|]. nra.
  - intros H. destruct (Qlt_le_dec c 0) as [Hc|Hc]; [left; exact Hc|right].
    apply Qle_Rle in Hc. rewrite Q2R_0 in Hc.
    apply Rlt_Qlt. rewrite Q2R_mult. nra.
Qed.

Lemma Rabs_zscore_R (mu v x : Q) :
  0 < v ->
  Rabs (zscore_R mu v x) = sqrt (Q2R ((x - mu) * (x - mu) / v)).
Proof.
  intros Hv. unfold zscore_R.
  assert (HV : (0 < Q2R v)%R) by (rewrite <- Q2R_0; apply Qlt_Rlt; exact Hv).
  rewrite Q2R_div by (intros E; rewrite E in Hv; discriminate).
  rewrite Q2R_mult, Q2R_minus.
  set (D := (Q2R x - Q2R mu)%R).
  rewrite sqrt_div by nra.
  unfold Rdiv. rewrite Rabs_mult.
  rewrite Rabs_inv.
  rewrite (Rabs_pos_eq (sqrt (Q2R v))) by apply sqrt_pos.
  f_equal. fold (Rsqr D). rewrite sqrt_Rsqr_abs. reflexivity.
Qed.

(** * Means and variances *)

Lemma Qsum_nonneg (l : list Q) : (forall x, In x l -> 0 <= x) -> 0 <= Qsum l.
Proof.
  induction l as [|a l IH]; intros H; simpl.
  - apply Qle_refl.
  - assert (0 <= a) by (apply H; left; reflexivity).
    assert (0 <= Qsum l) by (apply IH; intros x Hx; apply H; right; exact Hx).
    lra.
Qed.

Lemma Qsum_zero (l : list Q) : (forall x, In x l -> x == 0) -> Qsum l == 0.
Proof.
  induction l as [|a l IH]; intros H; simpl.
  - reflexivity.
  - rewrite (H a) by (left; reflexivity).
    rewrite IH by (intros x Hx; apply H; right; exact Hx). reflexivity.
Qed.

Lemma Qsum_const (c : Q) (l : list Q) :
  (forall x, In x l -> x == c) -> Qsum l == Qlen l * c.
Proof.
  unfold Qlen. induction l as [|a l IH]; intros H.
  - simpl. ring.
  - assert (Ha : a == c) by (apply H; left; reflexivity).
    assert (Hl : Qsum l == inject_Z (Z.of_nat (length l)) * c)
      by (apply IH; intros x Hx; apply H; right; exact Hx).
    change (Qsum (a :: l)) with (a + Qsum l).
    change (length (a :: l)) with (S (length l)).
    rewrite Nat2Z.inj_succ. unfold Z.succ. rewrite inject_Z_plus.
    change (inject_Z 1) with 1. nra.
Qed.

Lemma Qlen_pos (l : list Q) : l <> [] -> 0 < Qlen l.
Proof.
  intros H. unfold Qlen. destruct l as [|a l]; [congruence|].
  change 0 with (inject_Z 0). rewrite <- Zlt_Qlt. simpl length. lia.
Qed.

Lemma sq_nonneg (d : Q) : 0 <= d * d.
Proof. nra. Qed.

Lemma sq_dev_nonneg (l : list Q) : 0 <= sq_dev l.
Proof.
  unfold sq_dev. apply Qsum_nonneg. intros x Hx.
  apply in_map_iff in Hx. destruct Hx as [y [<- _]]. apply sq_nonneg.
Qed.

Lemma mean_constant (c : Q) (l : list Q) :
  l <> [] -> (forall x, In x l -> x == c) -> mean l == c.
Proof.
  intros Hne H. unfold mean. rewrite (Qsum_const c l H).
  pose proof (Qlen_pos l Hne). field. lra.
Qed.

Lemma sq_dev_constant (l : list Q) : constant l -> sq_dev l == 0.
Proof.
  intros H. destruct l as [|c l]; [reflexivity|].
  assert (Hm : mean (c :: l) == c).
  { apply mean_constant; [discriminate|]. intros x Hx. apply H; [exact Hx|left; reflexivity]. }
  unfold sq_dev. apply Qsum_zero. intros y Hy.
  apply in_map_iff in Hy. destruct Hy as [x [<- Hx]].
  rewrite Hm. rewrite (H x c Hx) by (left; reflexivity). lra.
Qed.

Lemma var_constant (ddof : nat) (l : list Q) : constant l -> var ddof l == 0.
Proof.
  intros H. unfold var. rewrite (sq_dev_constant l H). unfold Qdiv. lra.
Qed.

Lemma short_constant (l : list Q) : (length l < 2)%nat -> constant l.
Proof.
  destruct l as [|a [|b l]]; simpl; intros H x y Hx Hy; try lia.
  - destruct Hx.
  - destruct Hx as [<-|[]]. destruct Hy as [<-|[]]. reflexivity.
Qed.

Lemma zscore_abs_eq (a : list Q) (x : Q) :
  zscore_abs a x
  = if Qeq_bool (var 0 a) 0 then SNaN
    else Sqrt ((x - mean a) * (x - mean a) / var 0 a).
Proof.
  unfold zscore_abs, std. destruct a as [|y a]; [reflexivity|].
  reflexivity.
Qed.

Lemma zscore_abs_constant (a : list Q) (x : Q) :
  constant a -> zscore_abs a x = SNaN.
Proof.
  intros H. rewrite zscore_abs_eq.
  assert (E : Qeq_bool (var 0 a) 0 = true) by (apply Qeq_bool_iff, var_constant, H).
  rewrite E. reflexivity.
Qed.

Lemma var0_pos (a : list Q) : ~ var 0 a == 0 -> 0 < var 0 a.
Proof.
  intros H. assert (Hne : a <> []) by (intros ->; apply H; reflexivity).
  assert (0 <= var 0 a).
  { unfold var. simpl Z.of_nat. rewrite Z.sub_0_r. fold (Qlen a).
    pose proof (sq_dev_nonneg a). pose proof (Qlen_pos a Hne).
    apply Qle_shift_div_l; lra. }
  apply Qle_lteq in H0. destruct H0; [assumption|]. exfalso. apply H. symmetry. assumption.
Qed.

Lemma Q2R_3 : Q2R 3 = 3%R.
Proof. unfold Q2R. simpl. lra. Qed.

Lemma Qsum_nonzero_ex (f : Q -> Q) (l : list Q) :
  ~ Qsum (map f l) == 0 -> exists x, In x l /\ ~ f x == 0.
Proof.
  induction l as [|a l IH]; simpl; intros H.
  - exfalso. apply H. reflexivity.
  - destruct (Qeq_dec (f a) 0) as [E|E].
    + destruct IH as [x [Hx Hf]].
      * intros E'. apply H. rewrite E, E'. reflexivity.
      * exists x. split; [right; exact Hx|exact Hf].
    + exists a. split; [left; reflexivity|exact E].
Qed.

Lemma var_scaled (ddof : nat) (a : list Q) :
  (ddof < length a)%nat ->
  var ddof a * (Qlen a - inject_Z (Z.of_nat ddof)) == sq_dev a.
Proof.
  intros H. unfold var, Qlen. unfold Z.sub. rewrite inject_Z_plus, inject_Z_opp.
  field. intros E.
  assert (inject_Z (Z.of_nat ddof) < inject_Z (Z.of_nat (length a))).
  { rewrite <- Zlt_Qlt. lia. }
  lra.
Qed.

Lemma var0_lt_var1 (a : list Q) :
  (2 <= length a)%nat -> ~ var 0 a == 0 -> 0 < var 0 a /\ var 0 a < var 1 a.
Proof.
  intros Hn Hv. pose proof (var0_pos a Hv) as Hpos. split; [exact Hpos|].
  pose proof (var_scaled 0 a ltac:(lia)) as H0.
  pose proof (var_scaled 1 a ltac:(lia)) as H1.
  assert (HN : 2 <= Qlen a).
  { unfold Qlen. change 2 with (inject_Z 2). rewrite <- Zle_Qle. lia. }
  change (inject_Z (Z.of_nat 0)) with 0 in H0.
  change (inject_Z (Z.of_nat 1)) with 1 in H1.
  set (N := Qlen a) in *. set (V0 := var 0 a) in *. set (V1 := var 1 a) in *.
  assert (E : (V1 - V0) * (N - 1) == V0) by lra.
  destruct (Qlt_le_dec V0 V1) as [|Hle]; [assumption|exfalso]. nra.
Qed.

Lemma zscore_R_differ (mu v0 v1 x : Q) :
  0 < v0 -> v0 < v1 -> ~ x == mu ->
  zscore_R mu v0 x <> zscore_R mu v1 x.
Proof.
  intros H0 H1 Hx. unfold zscore_R.
  assert (HD : (Q2R x - Q2R mu)%R <> 0%R).
  { intros E. apply Hx. apply eqR_Qeq. lra. }
  apply Qlt_Rlt in H0, H1. rewrite Q2R_0 in H0.
  assert (Hs : (sqrt (Q2R v0) < sqrt (Q2R v1))%R) by (apply sqrt_lt_1; lra).
  assert (Hp : (0 < sqrt (Q2R v0))%R) by (apply sqrt_lt_R0; lra).
  intros E. unfold Rdiv in E. apply Rmult_eq_reg_l in E; [|exact HD].
  apply Rinv_eq_reg in E. lra.
Qed.

Lemma zscore_R_mean (mu v x : Q) : x == mu -> zscore_R mu v x = 0%R.
Proof.
  intros E. unfold zscore_R. apply Qeq_eqR in E. rewrite E. unfold Rdiv. ring.
Qed.

(** * The one-shot cleaning pass *)

Lemma dropna_cells (cs : list column) (df : DataFrame) (lr : nat * row) :
  In lr (rows (dropna cs df)) ->
  forall c, In c cs -> exists x, cell c (snd lr) = Some x.
Proof.
  unfold dropna. simpl. rewrite filter_In. intros [_ H] c Hc.
  rewrite forallb_forall in H. specialize (H c Hc).
  destruct (cell c (snd lr)) as [x|]; [exists x; reflexivity|discriminate].
Qed.

Lemma load_cleaned (cols : list column) (rs : list row) :
  let df := after_dropna cols rs in
  cleaned_df (load_and_clean_data cols rs)
  = Some (boolean_index (zscore_mask (numeric_available df) df) df).
Proof. reflexivity. Qed.

Lemma after_dropna_cells (cols : list column) (rs : list row) (lr : nat * row) :
  let df := after_dropna cols rs in
  In lr (rows df) ->
  forall c, In c (numeric_available df) -> exists x, cell c (snd lr) = Some x.
Proof.
  cbv zeta. intros H c Hc. exact (dropna_cells _ _ lr H c Hc).
Qed.

Lemma In_boolean_index (mask : row -> bool) (df : DataFrame) (lr : nat * row) :
  In lr (rows (boolean_index mask df)) <-> In lr (rows df) /\ mask (snd lr) = true.
Proof. unfold boolean_index. simpl. apply filter_In. Qed.

(** ** Comparisons of doubles *)

(** From the IEEE specification of the comparisons: a comparison that is
    not [<] is [>=], unless one side is nan. *)
Lemma SFeqb_abs (s : SpecFloat.spec_float) :
  SpecFloat.SFeqb (SpecFloat.SFabs s) (SpecFloat.SFabs s) = SpecFloat.SFeqb s s.
Proof.
  destruct s as [b|b| |b m e]; try reflexivity; try (destruct b; reflexivity).
  unfold SpecFloat.SFeqb, SpecFloat.SFabs, SpecFloat.SFcompare.
  change (Pos.compare_cont Eq m m) with (m ?= m)%positive.
  rewrite Z.compare_refl, Pos.compare_refl. destruct b; reflexivity.
Qed.

Lemma SFltb_false_SFleb (x y : SpecFloat.spec_float) :
  SpecFloat.SFltb x y = false ->
  SpecFloat.SFeqb x x = true -> SpecFloat.SFeqb y y = true ->
  SpecFloat.SFleb y x = true.
Proof.
  unfold SpecFloat.SFltb, SpecFloat.SFleb, SpecFloat.SFeqb.
  destruct x as [bx|bx| |bx mx ex], y as [b_y|b_y| |b_y my ey]; simpl;
    try discriminate; try reflexivity;
    try (destruct bx; try destruct b_y; simpl; congruence);
    try (destruct b_y; simpl; congruence).
  change (Pos.compare_cont Eq mx my) with (mx ?= my)%positive.
  change (Pos.compare_cont Eq my mx) with (my ?= mx)%positive.
  intros H _ _. destruct bx, b_y; simpl in *; try congruence.
  - rewrite (Z.compare_antisym ex ey). rewrite (Pos.compare_antisym mx my).
    destruct (ex ?= ey)%Z; simpl in *; try congruence.
    destruct (mx ?= my)%positive; simpl in *; congruence.
  - rewrite (Z.compare_antisym ex ey). rewrite (Pos.compare_antisym mx my).
    destruct (ex ?= ey)%Z; simpl in *; try congruence.
    destruct (mx ?= my)%positive; simpl in *; congruence.
Qed.

Lemma ltb_false_leb (x y : PrimFloat.float) :
  PrimFloat.ltb x y = false ->
  PrimFloat.is_nan x = false -> PrimFloat.is_nan y = false ->
  PrimFloat.leb y x = true.
Proof.
  unfold PrimFloat.is_nan.
  rewrite FloatAxioms.ltb_spec, FloatAxioms.leb_spec, !FloatAxioms.eqb_spec,
    !negb_false_iff.
  apply SFltb_false_SFleb.
Qed.

Lemma is_nan_abs (z : PrimFloat.float) :
  PrimFloat.is_nan (PrimFloat.abs z) = PrimFloat.is_nan z.
Proof.
  unfold PrimFloat.is_nan.
  rewrite !FloatAxioms.eqb_spec, FloatAxioms.abs_spec, SFeqb_abs. reflexivity.
Qed.

(** A z-score that fails the test [|z| < 3.0] is at least 3.0 in magnitude,
    or nan. *)
Lemma not_below_threshold (z : PrimFloat.float) :
  PrimFloat.ltb (PrimFloat.abs z) Binary64.threshold = false ->
  PrimFloat.leb Binary64.threshold (PrimFloat.abs z) = true
  \/ PrimFloat.is_nan z = true.
Proof.
  intros H. destruct (PrimFloat.is_nan z) eqn:E; [right; reflexivity|left].
  apply ltb_false_leb; [exact H|rewrite is_nan_abs; exact E|reflexivity].
Qed.

(** ** The summation *)

(** The recursion of [pairwise] ends before the fuel does: any fuel of at
    least the length gives the same sum. *)
Lemma pairwise_fuel (a : list PrimFloat.float) (fuel fuel' : nat) :
  (length a <= fuel)%nat -> (length a <= fuel')%nat ->
  Binary64.pairwise fuel a = Binary64.pairwise fuel' a.
Proof.
  revert a fuel'. induction fuel as [|fuel IH]; intros a fuel' H H'.
  - destruct a; [|simpl in H; lia]. destruct fuel'; reflexivity.
  - destruct fuel' as [|fuel'].
    + destruct a; [reflexivity|simpl in H'; lia].
    + cbn [Binary64.pairwise].
      destruct (Nat.leb_spec (length a) 128); [reflexivity|].
      set (n2 := (length a / 2 - (length a / 2) mod 8)%nat).
      assert (N2 : (0 < n2 <= length a - 1)%nat).
      { unfold n2.
        pose proof (Nat.div_mod_eq (length a) 2) as D.
        pose proof (Nat.mod_upper_bound (length a) 2 ltac:(lia)) as D2.
        pose proof (Nat.mod_upper_bound (length a / 2) 8 ltac:(lia)) as M.
        set (h := (length a / 2)%nat) in *.
        set (r := (h mod 8)%nat) in *. lia. }
      f_equal.
      * apply IH; rewrite length_firstn; lia.
      * apply IH; rewrite length_skipn; lia.
Qed.

(** * The one-shot cleaning pass, in double precision *)

Lemma load_cleaned_binary64 (sum : list PrimFloat.float -> PrimFloat.float)
  (cols : list column) (rs : list row) :
  let df := after_dropna cols rs in
  cleaned_df (Binary64.load_and_clean_data sum cols rs)
  = Some (boolean_index (Binary64.zscore_mask sum (numeric_available df) df) df).
Proof. reflexivity. Qed.

(** The z-score of the cleaning pass, written out: the deviation from
    [sum a / n] over the square root of the squared deviations, added up
    and divided by [n] (the population standard deviation), each operation
    rounded. *)
Lemma zscore_at_population (sum : list PrimFloat.float -> PrimFloat.float)
  (a : list PrimFloat.float) (v : PrimFloat.float) :
  let n := Binary64.of_count (length a) in
  let m := PrimFloat.div (sum a) n in
  Binary64.zscore_at sum a v
  = if Binary64.isconst a then PrimFloat.nan
    else PrimFloat.div (PrimFloat.sub v m)
           (PrimFloat.sqrt
              (PrimFloat.div
                 (sum (map (fun d => PrimFloat.mul d d)
                         (map (fun w => PrimFloat.sub w m) a)))
                 n)).
Proof.
  cbv zeta. unfold Binary64.zscore_at, Binary64.std, Binary64.var, Binary64.mean.
  rewrite Nat.sub_0_r. reflexivity.
Qed.

(** C4, as stated, fails: the row at 24 is dropped by the cleaning pass
    (its z-score with the population standard deviation is about 3.06), and
    its z-score with the sample standard deviation (about 2.92) is below 3.0
    in the only available field, in double precision with either summation
    as in the real numbers. *)
Lemma dropped_below_sample_threshold :
  let df := after_dropna [temperature] eleven_readings in
  let a := values (series temperature df) in
  let a64 := Binary64.column_values temperature df in
  let dropped := (10%nat, example_doc 24) in
  numeric_available df = [temperature]
  /\ (2 <= length a)%nat
  /\ ~ var 1 a == 0
  /\ In dropped (rows df)
  /\ (forall sum,
        sum = Binary64.naive_sum \/ sum = Binary64.pairwise_sum ->
        (exists cleaned,
           cleaned_df (Binary64.load_and_clean_data sum [temperature] eleven_readings)
           = Some cleaned
           /\ ~ In dropped (rows cleaned))
        /\ PrimFloat.ltb
             (PrimFloat.abs
                (PrimFloat.div
                   (PrimFloat.sub (Binary64.b64 24) (Binary64.mean sum a64))
                   (Binary64.std sum 1 a64)))
             Binary64.threshold = true)
  /\ (Rabs (zscore_R (mean a) (var 1 a) 24) < 3)%R.
Proof.
  cbv zeta. split; [reflexivity|]. split; [vm_compute; lia|].
  split; [vm_compute; discriminate|].
  split; [vm_compute; intuition|].
  split.
  - intros sum [->| ->]; (split; [|vm_compute; reflexivity]);
      (eexists; split; [reflexivity|]; vm_compute; intuition congruence).
  - rewrite Rabs_zscore_R by (vm_compute; reflexivity).
    rewrite <- Q2R_3. apply surd_lt_spec; vm_compute; [discriminate|reflexivity].
Qed.

(** C4, amended. With the mean and the population standard deviation
    (denominator n) computed in double precision over the rows that survive
    the required-field drop, and the z-score of a value its deviation from
    that mean over that standard deviation (nan on a constant field): every
    row the cleaning pass keeps has a z-score below 3.0 in magnitude in every
    available field, and every row it drops has, in some available field, a
    z-score that is at least 3.0 in magnitude or nan.  This holds for every
    order of summation. *)
Theorem cleaning_pass_zscores
  (sum : list PrimFloat.float -> PrimFloat.float)
  (cols : list column) (rs : list row) :
  let df := after_dropna cols rs in
  let z c x :=
    Binary64.zscore_at sum (Binary64.column_values c df) (Binary64.b64 x) in
  exists cleaned,
    cleaned_df (Binary64.load_and_clean_data sum cols rs) = Some cleaned
    /\ collection (Binary64.load_and_clean_data sum cols rs) = map snd (rows cleaned)
    /\ (forall lr, In lr (rows cleaned) -> In lr (rows df))
    /\ (forall lr, In lr (rows df) ->
          (In lr (rows cleaned) ->
           forall c, In c (numeric_available df) ->
             exists x, cell c (snd lr) = Some x
                       /\ PrimFloat.ltb (PrimFloat.abs (z c x)) Binary64.threshold
                          = true)
          /\ (~ In lr (rows cleaned) ->
              exists c x, In c (numeric_available df)
                          /\ cell c (snd lr) = Some x
                          /\ PrimFloat.ltb (PrimFloat.abs (z c x)) Binary64.threshold
                             = false
                          /\ (PrimFloat.leb Binary64.threshold (PrimFloat.abs (z c x))
                              = true
                              \/ PrimFloat.is_nan (z c x) = true)))
    /\ forall a v,
         let n := Binary64.of_count (length a) in
         let m := PrimFloat.div (sum a) n in
         Binary64.zscore_at sum a v
         = if Binary64.isconst a then PrimFloat.nan
           else PrimFloat.div (PrimFloat.sub v m)
                  (PrimFloat.sqrt
                     (PrimFloat.div
                        (sum (map (fun d => PrimFloat.mul d d)
                                (map (fun w => PrimFloat.sub w m) a)))
                        n)).
Proof.
  cbv zeta. eexists. split; [apply load_cleaned_binary64|].
  split; [reflexivity|].
  pose proof (after_dropna_cells cols rs) as Hcells. cbv zeta in Hcells.
  revert Hcells. generalize (after_dropna cols rs). intros df Hcells.
  split; [intros lr Hlr; apply In_boolean_index in Hlr; tauto|].
  split; [|intros a v; apply zscore_at_population].
  intros lr Hlr. rewrite In_boolean_index. split.
  - intros [_ Hmask] c Hc. unfold Binary64.zscore_mask in Hmask.
    rewrite forallb_forall in Hmask. specialize (Hmask c Hc).
    destruct (cell c (snd lr)) as [x|]; [|discriminate].
    exists x. split; [reflexivity|exact Hmask].
  - intros Hnot.
    destruct (Binary64.zscore_mask sum (numeric_available df) df (snd lr)) eqn:E;
      [exfalso; apply Hnot; split; [exact Hlr|reflexivity]|].
    apply forallb_false in E. destruct E as [c [Hc Hf]].
    destruct (Hcells lr Hlr c Hc) as [x Hx]. rewrite Hx in Hf.
    exists c, x. split; [exact Hc|]. split; [exact Hx|].
    split; [exact Hf|apply not_below_threshold, Hf].
Qed.

Lemma cleaning_pass_zscores_witness :
  let df := after_dropna [temperature] eleven_readings in
  let z x :=
    Binary64.zscore_at Binary64.pairwise_sum
      (Binary64.column_values temperature df) (Binary64.b64 x) in
  exists cleaned,
    cleaned_df (Binary64.load_and_clean_data Binary64.pairwise_sum [temperature]
                  eleven_readings) = Some cleaned
    /\ In (9%nat, example_doc 21) (rows cleaned)
    /\ ~ In (10%nat, example_doc 24) (rows cleaned)
    /\ PrimFloat.ltb (PrimFloat.abs (z 21)) Binary64.threshold = true
    /\ (exists c x,
          In c (numeric_available df)
          /\ cell c (example_doc 24) = Some x
          /\ PrimFloat.ltb (PrimFloat.abs
               (Binary64.zscore_at Binary64.pairwise_sum
                  (Binary64.column_values c df) (Binary64.b64 x)))
               Binary64.threshold = false).
Proof.
  cbv zeta.
  destruct (cleaning_pass_zscores Binary64.pairwise_sum [temperature] eleven_readings)
    as [cleaned [Hdf [_ [_ [H _]]]]].
  exists cleaned. split; [exact Hdf|].
  rewrite load_cleaned_binary64 in Hdf. injection Hdf as <-.
  assert (K : In (9%nat, example_doc 21)
                (rows (boolean_index
                         (Binary64.zscore_mask Binary64.pairwise_sum
                            (numeric_available (after_dropna [temperature] eleven_readings))
                            (after_dropna [temperature] eleven_readings))
                         (after_dropna [temperature] eleven_readings)))).
  { apply In_boolean_index. split; [vm_compute; auto 20|vm_compute; reflexivity]. }
  assert (D : ~ In (10%nat, example_doc 24)
                (rows (boolean_index
                         (Binary64.zscore_mask Binary64.pairwise_sum
                            (numeric_available (after_dropna [temperature] eleven_readings))
                            (after_dropna [temperature] eleven_readings))
                         (after_dropna [temperature] eleven_readings)))).
  { intros Hin. apply In_boolean_index in Hin. destruct Hin as [_ Hin].
    vm_compute in Hin. discriminate Hin. }
  split; [exact K|]. split; [exact D|]. split.
  - destruct (H (9%nat, example_doc 21)) as [Hkept _]; [vm_compute; auto 20|].
    destruct (Hkept K temperature) as [x [Hx Hz]]; [vm_compute; auto|].
    injection Hx as <-. exact Hz.
  - destruct (H (10%nat, example_doc 24)) as [_ Hdropped]; [vm_compute; auto 20|].
    destruct (Hdropped D) as [c [x [Hc [Hx [Hz _]]]]].
    exists c, x. auto.
Defined.

(** Where rounding decides.  Among nine readings at 20 and one at 21, the
    z-score of the 21 is 3 in the real numbers, and 2.9999999999999956 in
    double precision: the program keeps the row, the exact reading of its
    test drops it.  The statements on [load_and_clean_data] below hold for
    every such test; those on the threshold itself are made on
    [Binary64.load_and_clean_data]. *)
Lemma rounding_at_the_threshold :
  let rs := map example_doc [20; 20; 20; 20; 20; 20; 20; 20; 20; 21] in
  removed_count (load_and_clean_data [temperature] rs) = 1%Z
  /\ forall sum,
       sum = Binary64.naive_sum \/ sum = Binary64.pairwise_sum ->
       removed_count (Binary64.load_and_clean_data sum [temperature] rs) = 0%Z
       /\ PrimFloat.ltb
            (PrimFloat.abs
               (Binary64.zscore_at sum
                  (Binary64.column_values temperature (after_dropna [temperature] rs))
                  (Binary64.b64 21)))
            Binary64.threshold = true.
Proof.
  cbv zeta. split; [reflexivity|].
  intros sum [->| ->]; split; vm_compute; reflexivity.
Qed.

(** * Population and sample standard deviation *)

Lemma after_dropna_dtype (cols : list column) (rs : list row) :
  rows (after_dropna cols rs) <> [] ->
  numeric_dtype (after_dropna cols rs) = float64.
Proof. destruct rs; [intros H; exfalso; apply H; reflexivity|reflexivity]. Qed.

(** C10, as stated, fails: at the mean of the field the two z-scores are the
    same number, 0, whichever standard deviation divides. *)
Lemma zscores_agree_at_the_mean :
  let rs := map example_doc [1; 2; 3] in
  let df := after_dropna [temperature] rs in
  let a := values (series temperature df) in
  let a64 := map Binary64.b64 a in
  numeric_available df = [temperature]
  /\ (2 <= length a)%nat
  /\ ~ var 0 a == 0
  /\ In 2 a
  /\ zscore_R (mean a) (var 0 a) 2 = 0%R
  /\ zscore_R (mean a) (var 1 a) 2 = 0%R
  /\ forall sum,
       sum = Binary64.naive_sum \/ sum = Binary64.pairwise_sum ->
       PrimFloat.eqb (Binary64.zscore_at sum a64 (Binary64.b64 2)) PrimFloat.zero
       = true
       /\ PrimFloat.eqb
            (PrimFloat.div
               (PrimFloat.sub (Binary64.b64 2) (Binary64.nanmean sum a64))
               (Binary64.nanstd sum 1 a64))
            PrimFloat.zero = true.
Proof.
  cbv zeta. split; [reflexivity|]. split; [vm_compute; lia|].
  split; [vm_compute; discriminate|].
  split; [vm_compute; auto|].
  split; [apply zscore_R_mean; vm_compute; reflexivity|].
  split; [apply zscore_R_mean; vm_compute; reflexivity|].
  intros sum [->| ->]; split; vm_compute; reflexivity.
Qed.

(** In double precision the difference can also be lost away from the
    mean: with the readings 0 and 1e-200 the squared deviations underflow to
    0, both standard deviations are computed as 0 and both z-scores of the
    second reading as infinity (and the cleaning pass drops the two rows). *)
Lemma underflow_hides_the_difference :
  let tiny := 1 # (10 ^ 200) in
  let rs := map example_doc [0; tiny] in
  let a := values (series temperature (after_dropna [temperature] rs)) in
  let a64 := map Binary64.b64 a in
  ~ var 0 a == 0
  /\ ~ tiny == mean a
  /\ forall sum,
       sum = Binary64.naive_sum \/ sum = Binary64.pairwise_sum ->
       Binary64.zscore_at sum a64 (Binary64.b64 tiny) = PrimFloat.infinity
       /\ PrimFloat.div
            (PrimFloat.sub (Binary64.b64 tiny) (Binary64.nanmean sum a64))
            (Binary64.nanstd sum 1 a64) = PrimFloat.infinity
       /\ removed_count (Binary64.load_and_clean_data sum [temperature] rs) = 2%Z.
Proof.
  cbv zeta. split; [vm_compute; discriminate|]. split; [vm_compute; discriminate|].
  intros sum [->| ->]; repeat split; vm_compute; reflexivity.
Qed.

(** C10, amended. The cleaning pass keeps a row only when its deviation from
    the mean, over the square root of the squared deviations divided by n
    (the population standard deviation), is below 3.0, computed in double
    precision over the rows that survive the required-field drop; on the
    same data the statistics report the square root of the squared
    deviations divided by n - 1 (the sample standard deviation).  As real
    numbers, for at least two rows and a non-zero variance, the second is
    strictly larger, and the z-scores of a value with the one and with the
    other differ exactly when the value is not the mean; the field holds
    such a value.  (A row that passes the test in every available field is
    kept; in double precision the difference of the z-scores can be lost to
    underflow, [underflow_hides_the_difference].) *)
Theorem cleaning_std_is_population_std
  (sum sum' : list PrimFloat.float -> PrimFloat.float)
  (cols : list column) (rs : list row) (c : column) :
  let df := after_dropna cols rs in
  let a := values (series c df) in
  let a64 := map Binary64.b64 a in
  let n := Binary64.of_count (length a) in
  In c (numeric_available df) -> (2 <= length a)%nat -> ~ var 0 a == 0 ->
  (exists cleaned,
     cleaned_df (Binary64.load_and_clean_data sum cols rs) = Some cleaned
     /\ (forall lr x,
           In lr (rows cleaned) -> cell c (snd lr) = Some x ->
           let m := PrimFloat.div (sum a64) n in
           PrimFloat.ltb
             (PrimFloat.abs
                (PrimFloat.div
                   (PrimFloat.sub (Binary64.b64 x) m)
                   (PrimFloat.sqrt
                      (PrimFloat.div
                         (sum (map (fun d => PrimFloat.mul d d)
                                 (map (fun w => PrimFloat.sub w m) a64)))
                         n))))
             Binary64.threshold = true)
     /\ forall lr,
          In lr (rows df) ->
          (forall c', In c' (numeric_available df) ->
             exists x', cell c' (snd lr) = Some x'
                        /\ PrimFloat.ltb
                             (PrimFloat.abs
                                (Binary64.zscore_at sum
                                   (Binary64.column_values c' df) (Binary64.b64 x')))
                             Binary64.threshold = true) ->
          In lr (rows cleaned))
  /\ (forall st,
        cleaned_df st = Some df ->
        exists body s,
          Binary64.stats_endpoint sum' st = Ok body
          /\ In (c, s) body
          /\ let avg := PrimFloat.div (sum' a64) n in
             Binary64.s_std s
             = PrimFloat.sqrt
                 (PrimFloat.div
                    (sum' (map (fun v => PrimFloat.mul (PrimFloat.sub avg v)
                                           (PrimFloat.sub avg v)) a64))
                    (Binary64.of_count (length a - 1))))
  /\ var 0 a * Qlen a == sq_dev a
  /\ var 1 a * (Qlen a - 1) == sq_dev a
  /\ (sqrt (Q2R (var 0 a)) < sqrt (Q2R (var 1 a)))%R
  /\ (forall x, zscore_R (mean a) (var 0 a) x <> zscore_R (mean a) (var 1 a) x
                <-> ~ x == mean a)
  /\ (exists x, In x a
                /\ zscore_R (mean a) (var 0 a) x <> zscore_R (mean a) (var 1 a) x).
Proof.
  cbv zeta. intros Hc Hn Hv.
  destruct (var0_lt_var1 _ Hn Hv) as [H0 H1].
  split.
  { eexists. split; [apply load_cleaned_binary64|]. split.
    - intros lr x Hlr Hx. apply In_boolean_index in Hlr. destruct Hlr as [_ Hmask].
      unfold Binary64.zscore_mask in Hmask. rewrite forallb_forall in Hmask.
      specialize (Hmask c Hc). rewrite Hx in Hmask.
      rewrite zscore_at_population in Hmask. unfold Binary64.column_values in Hmask.
      rewrite length_map in Hmask.
      destruct (Binary64.isconst _); [discriminate Hmask|exact Hmask].
    - intros lr Hlr Hall. apply In_boolean_index. split; [exact Hlr|].
      unfold Binary64.zscore_mask. apply forallb_forall. intros c' Hc'.
      destruct (Hall c' Hc') as [x' [-> Hz]]. exact Hz. }
  split.
  { intros st Hdf.
    assert (Hrows : rows (after_dropna cols rs) <> []).
    { intros E. unfold values, series in Hn. rewrite E in Hn. simpl in Hn. lia. }
    exists (map (fun c' => (c', Binary64.describe sum'
                                 (Binary64.column_values c' (after_dropna cols rs))))
              (numeric_available (after_dropna cols rs))).
    exists (Binary64.describe sum' (Binary64.column_values c (after_dropna cols rs))).
    split.
    { unfold Binary64.stats_endpoint. rewrite Hdf, (after_dropna_dtype cols rs Hrows).
      destruct (numeric_available (after_dropna cols rs)); [destruct Hc|reflexivity]. }
    split; [apply in_map_iff; exists c; split; [reflexivity|exact Hc]|].
    unfold Binary64.describe, Binary64.nanstd, Binary64.nanvar,
      Binary64.column_values. cbn [Binary64.s_std]. rewrite length_map.
    destruct (Nat.leb_spec (length (values (series c (after_dropna cols rs)))) 1);
      [lia|reflexivity]. }
  set (a := values (series c (after_dropna cols rs))) in *.
  split.
  { rewrite <- (var_scaled 0 a) by lia.
    change (inject_Z (Z.of_nat 0)) with 0. ring. }
  split; [exact (var_scaled 1 a ltac:(lia))|].
  split.
  { apply sqrt_lt_1; try apply Q2R_nonneg; try lra. apply Qlt_Rlt, H1. }
  split.
  { intros x. split.
    - intros Hd E. apply Hd. rewrite !zscore_R_mean by exact E. reflexivity.
    - apply zscore_R_differ; assumption. }
  assert (Hs : ~ sq_dev a == 0).
  { intros E. apply Hv. unfold var. rewrite E. unfold Qdiv. ring. }
  destruct (Qsum_nonzero_ex _ a Hs) as [x [Hx Hne]].
  exists x. split; [exact Hx|].
  apply zscore_R_differ; try assumption.
  intros E. apply Hne. rewrite E. ring.
Qed.

Lemma cleaning_std_is_population_std_witness :
  let rs := map example_doc [1; 2; 4] in
  let a := [1; 2; 4] in
  (exists body s,
     Binary64.stats_endpoint Binary64.pairwise_sum
       (Binary64.load_and_clean_data Binary64.naive_sum [temperature] rs) = Ok body
     /\ In (temperature, s) body
     /\ PrimFloat.ltb (Binary64.std Binary64.naive_sum 0 (map Binary64.b64 a))
          (Binary64.s_std s) = true)
  /\ exists x, In x a
               /\ zscore_R (mean a) (var 0 a) x <> zscore_R (mean a) (var 1 a) x.
Proof.
  cbv zeta.
  destruct (cleaning_std_is_population_std Binary64.naive_sum Binary64.pairwise_sum
              [temperature] (map example_doc [1; 2; 4]) temperature)
    as [_ [Hstats [_ [_ [_ [_ Hex]]]]]].
  - vm_compute. auto.
  - vm_compute. lia.
  - vm_compute. discriminate.
  - split; [|exact Hex].
    destruct (Hstats (Binary64.load_and_clean_data Binary64.naive_sum [temperature]
                        (map example_doc [1; 2; 4])) eq_refl)
      as [body [s [Hb [Hin Hstd]]]].
    exists body, s. split; [exact Hb|]. split; [exact Hin|].
    cbv zeta in Hstd. rewrite Hstd. vm_compute. reflexivity.
Defined.

(** * Degenerate fields *)

Lemma zscore_abs_degenerate (a : list Q) (x : Q) :
  degenerate a -> zscore_abs a x = SNaN.
Proof.
  intros [H|[H|H]].
  - apply zscore_abs_constant, H.
  - apply zscore_abs_constant, short_constant, H.
  - rewrite zscore_abs_eq. apply Qeq_bool_iff in H. rewrite H. reflexivity.
Qed.

Lemma column_name_inj (a b : column) :
  String.eqb (column_name a) (column_name b) = true -> a = b.
Proof. destruct a, b; simpl; intros H; try reflexivity; discriminate. Qed.

Lemma column_eqb_eq (a b : column) : column_eqb a b = true <-> a = b.
Proof. destruct a, b; simpl; split; intros H; try reflexivity; discriminate. Qed.

Lemma find_column_name (c : column) (cols : list column) :
  has_column c cols = true -> find_column (column_name c) cols = Some c.
Proof.
  unfold has_column, find_column. induction cols as [|a cols IH]; simpl; [discriminate|].
  destruct (String.eqb (column_name a) (column_name c)) eqn:E.
  - intros _. apply column_name_inj in E. congruence.
  - rewrite orb_true_iff. intros [H|H]; [|apply IH, H].
    apply column_eqb_eq in H. subst a. rewrite String.eqb_refl in E. discriminate.
Qed.

Lemma flagged_none (mask : Q -> bool) (data : list (nat * Q)) :
  (forall x, mask x = false) -> flagged mask data = [].
Proof.
  intros H. unfold flagged. induction data as [|lx data IH]; simpl; [reflexivity|].
  rewrite H. exact IH.
Qed.

(** C2, as stated, fails: with a constant temperature the z-score of every
    temperature is nan, not 0; the salinity of every row passes the test,
    and still the cleaning pass rejects all three rows. *)
Lemma constant_field_rejects_every_row :
  let df := after_dropna [temperature; salinity] constant_temperature in
  let st := load_and_clean_data [temperature; salinity] constant_temperature in
  constant (values (series temperature df))
  /\ zscore_abs (values (series temperature df)) 20 = SNaN
  /\ zscore_abs (values (series temperature df)) 20 <> Sqrt 0
  /\ (forall lr x, In lr (rows df) -> cell salinity (snd lr) = Some x ->
        surd_lt (zscore_abs (values (series salinity df)) x) 3 = true)
  /\ len df = 3%nat
  /\ cleaned_df st = Some (mkFrame [timestamp; temperature; salinity] [])
  /\ removed_count st = 3%Z.
Proof.
  cbv zeta. split.
  { intros x y Hx Hy. vm_compute in Hx, Hy.
    destruct Hx as [<-|[<-|[<-|[]]]]; destruct Hy as [<-|[<-|[<-|[]]]]; reflexivity. }
  split; [reflexivity|]. split; [discriminate|].
  split.
  { intros lr x Hlr. vm_compute in Hlr.
    destruct Hlr as [<-|[<-|[<-|[]]]]; simpl; intros [= <-]; reflexivity. }
  repeat split.
Qed.

(** C2, amended. On a field whose standard deviation is zero or undefined (a
    single distinct value, fewer than two rows) the z-score of every row is
    nan, not 0; no comparison [|z| > k] holds on it, and the on-demand
    z-score detection answers without an error and flags no row. *)
Theorem degenerate_field_zscore
  (st : state) (df : DataFrame) (c : column) (k : option Q) :
  cleaned_df st = Some df ->
  has_column c (columns df) = true -> c <> timestamp ->
  degenerate (values (series c df)) ->
  (forall x, zscore_abs (values (series c df)) x = SNaN)
  /\ (forall x t, surd_gt (zscore_abs (values (series c df)) x) t = false)
  /\ outliers st (mkOutlierArgs (Some (column_name c)) (Some "zscore"%string) k)
     = Ok (mkReport "zscore" (column_name c) (args_get k default_k) 0 []).
Proof.
  intros Hdf Hc Hts Hdeg.
  assert (Hnan : forall x, zscore_abs (values (series c df)) x = SNaN)
    by (intros x; apply zscore_abs_degenerate, Hdeg).
  split; [exact Hnan|].
  split; [intros x t; rewrite Hnan; reflexivity|].
  unfold outliers. rewrite Hdf. simpl args_get.
  rewrite (find_column_name c _ Hc).
  assert (E : outlier_indices "zscore" (args_get k default_k) (series c df) = Some []).
  { unfold outlier_indices. simpl. f_equal. apply flagged_none.
    intros x. unfold zscore_outlier_mask. rewrite Hnan. reflexivity. }
  destruct c; try congruence; rewrite E; reflexivity.
Qed.


Lemma degenerate_field_zscore_witness :
  let st := load_and_clean_data [temperature] twelve_readings in
  len (after_dropna [temperature] twelve_readings) = 12%nat
  /\ removed_count st = 1%Z
  /\ outliers st (mkOutlierArgs (Some "temperature"%string) (Some "zscore"%string) (Some 3))
     = Ok (mkReport "zscore" "temperature" 3 0 []).
Proof.
  cbv zeta. split; [reflexivity|]. split; [reflexivity|].
  apply (degenerate_field_zscore
           (load_and_clean_data [temperature] twelve_readings)
           (mkFrame [timestamp; temperature]
              (combine (seq 0 11) (map example_doc [20; 20; 20; 20; 20; 20; 20; 20; 20; 20; 20])))
           temperature (Some 3)).
  - reflexivity.
  - reflexivity.
  - discriminate.
  - right. right. vm_compute. reflexivity.
Defined.


(** * The default sensitivity *)

(** C3. The handler reads [k] with the single default 1.5, before it looks
    at the method: a z-score request without [k] is answered as one with
    [k = 1.5], here with one outlier where [k = 3.0] gives none. *)
Lemma zscore_default_k :
  let st := load_and_clean_data [temperature] five_readings in
  (forall st' field,
     outliers st' (mkOutlierArgs field (Some "zscore"%string) None)
     = outliers st' (mkOutlierArgs field (Some "zscore"%string) (Some (3 # 2))))
  /\ outliers st (mkOutlierArgs None (Some "zscore"%string) None)
     = Ok (mkReport "zscore" "temperature" (3 # 2) 1 [example_doc 100])
  /\ outliers st (mkOutlierArgs None (Some "zscore"%string) (Some 3))
     = Ok (mkReport "zscore" "temperature" 3 0 [])
  /\ outliers st (mkOutlierArgs None (Some "iqr"%string) None)
     = Ok (mkReport "iqr" "temperature" (3 # 2) 1 [example_doc 100]).
Proof. cbv zeta. split; [reflexivity|]. repeat split. Qed.


(** * Quantiles *)

Lemma sorted_nth (v : list Q) :
  StronglySorted (fun x y => is_true (Qle_bool x y)) v ->
  forall i j, (i <= j)%nat -> (j < length v)%nat -> nth i v 0 <= nth j v 0.
Proof.
  induction 1 as [|a l Hl IH Ha]; intros i j Hij Hj; simpl in Hj; [lia|].
  destruct i as [|i], j as [|j]; simpl; try lia.
  - apply Qle_refl.
  - rewrite Forall_forall in Ha. apply Qle_bool_iff. apply Ha. apply nth_In. lia.
  - apply IH; lia.
Qed.

Lemma sort_strongly_sorted (l : list Q) :
  StronglySorted (fun x y => is_true (Qle_bool x y)) (QSort.sort l).
Proof.
  apply QSort.StronglySorted_sort. intros x y z Hxy Hyz.
  unfold is_true in *. rewrite Qle_bool_iff in *. eapply Qle_trans; eassumption.
Qed.

Lemma length_sort (l : list Q) : length (QSort.sort l) = length l.
Proof. symmetry. apply Permutation_length, QSort.Permuted_sort. Qed.

Lemma Qfloor_bounds (h : Q) (m : Z) :
  0 <= h -> h <= inject_Z m -> (0 <= Qfloor h <= m)%Z.
Proof.
  intros H0 Hm. split.
  - change 0%Z with (Qfloor 0). apply Qfloor_resp_le, H0.
  - rewrite <- (Qfloor_Z m). apply Qfloor_resp_le, Hm.
Qed.

(** On sorted values, the interpolation is monotone in the quantile. *)
Lemma interpolate_mono (v : list Q) (q1 q2 : Q) :
  StronglySorted (fun x y => is_true (Qle_bool x y)) v -> v <> [] ->
  0 <= q1 -> q1 <= q2 -> q2 <= 1 ->
  interpolate v q1 <= interpolate v q2.
Proof.
  intros Hs Hne H0 H12 H1. unfold interpolate.
  assert (Hn : (1 <= length v)%nat) by (destruct v; [congruence|simpl; lia]).
  set (N := inject_Z (Z.of_nat (length v) - 1)).
  assert (HN : 0 <= N).
  { unfold N. change 0 with (inject_Z 0). rewrite <- Zle_Qle. lia. }
  set (h1 := N * q1). set (h2 := N * q2).
  assert (Hh1 : 0 <= h1) by (unfold h1; nra).
  assert (Hh12 : h1 <= h2) by (unfold h1, h2; nra).
  assert (Hh2 : h2 <= N) by (unfold h2; nra).
  assert (B1 := Qfloor_bounds h1 (Z.of_nat (length v) - 1) Hh1 ltac:(fold N; lra)).
  assert (B2 := Qfloor_bounds h2 (Z.of_nat (length v) - 1) ltac:(lra) Hh2).
  assert (F12 := Qfloor_resp_le h1 h2 Hh12).
  pose proof (Qfloor_le h1) as L1. pose proof (Qlt_floor h1) as U1.
  pose proof (Qfloor_le h2) as L2. pose proof (Qlt_floor h2) as U2.
  rewrite inject_Z_plus in U1, U2. change (inject_Z 1) with 1 in U1, U2.
  set (f1 := Qfloor h1) in *. set (f2 := Qfloor h2) in *.
  set (lo1 := Z.to_nat f1). set (lo2 := Z.to_nat f2).
  set (hi1 := Nat.min (S lo1) (length v - 1)).
  set (hi2 := Nat.min (S lo2) (length v - 1)).
  assert (A1 : nth lo1 v 0 <= nth hi1 v 0) by (apply sorted_nth; [assumption|unfold hi1, lo1; lia..]).
  assert (A2 : nth lo2 v 0 <= nth hi2 v 0) by (apply sorted_nth; [assumption|unfold hi2, lo2; lia..]).
  destruct (Z.eq_dec f1 f2) as [E|E].
  - assert (Elo : lo1 = lo2) by (unfold lo1, lo2; congruence).
    assert (Ehi : hi1 = hi2) by (unfold hi1, hi2; congruence).
    rewrite <- Elo, <- Ehi. rewrite <- E.
    set (a := nth lo1 v 0) in *. set (b := nth hi1 v 0) in *. nra.
  - assert (A12 : nth hi1 v 0 <= nth lo2 v 0) by (apply sorted_nth; [assumption|unfold hi1, lo1, lo2; lia..]).
    set (a1 := nth lo1 v 0) in *. set (b1 := nth hi1 v 0) in *.
    set (a2 := nth lo2 v 0) in *. set (b2 := nth hi2 v 0) in *.
    apply Qle_trans with b1; [nra|]. apply Qle_trans with a2; [exact A12|nra].
Qed.



(** * Selection by position *)




Lemma flagged_series (c : column) (mask : Q -> bool) (df : DataFrame) :
  flagged mask (series c df) = map fst (filter (keeps c mask) (rows df)).
Proof.
  unfold flagged, series, keeps. induction (rows df) as [|lr l IH]; [reflexivity|].
  simpl. destruct (cell c (snd lr)) as [x|]; simpl; [|exact IH].
  destruct (mask x); simpl; rewrite IH; reflexivity.
Qed.

Lemma iloc_labels (keep : nat * row -> bool) (cur pre : list (nat * row)) :
  map fst cur = seq (length pre) (length cur) ->
  iloc (pre ++ cur) (map fst (filter keep cur)) = Some (filter keep cur).
Proof.
  revert pre. induction cur as [|lr cur IH]; intros pre H; [reflexivity|].
  simpl in H. injection H as Hl Hcur.
  assert (IH' : iloc (pre ++ lr :: cur) (map fst (filter keep cur)) = Some (filter keep cur)).
  { specialize (IH (pre ++ [lr])). rewrite <- app_assoc in IH. apply IH.
    rewrite length_app. simpl. rewrite Nat.add_1_r. exact Hcur. }
  simpl. destruct (keep lr); [|exact IH'].
  simpl. rewrite IH', Hl.
  rewrite nth_error_app2 by lia. rewrite Nat.sub_diag. reflexivity.
Qed.

Lemma iloc_flagged (c : column) (mask : Q -> bool) (df : DataFrame) :
  map fst (rows df) = seq 0 (len df) ->
  iloc (rows df) (flagged mask (series c df))
  = Some (filter (keeps c mask) (rows df)).
Proof.
  intros H. rewrite flagged_series. apply (iloc_labels _ (rows df) []). exact H.
Qed.

(** * On-demand outlier detection *)

(** C1. The first source row has no temperature and is dropped, so the
    cleaned frame keeps the labels 1 to 5.  The IQR mask flags the value 100,
    at label 1; the selection by position returns the row at position 1,
    whose temperature 10 is not an outlier. *)
Lemma outliers_returns_wrong_record :
  let st := load_and_clean_data [latitude; temperature] six_rows in
  let df := after_dropna [latitude; temperature] six_rows in
  let data := series temperature df in
  cleaned_df st = Some df
  /\ rows df = combine [1; 2; 3; 4; 5]%nat (map example_doc [100; 10; 11; 12; 13])
  /\ collection st = map example_doc [100; 10; 11; 12; 13]
  /\ filter (keeps temperature (iqr_mask (values data) default_k)) (rows df)
     = [(1%nat, example_doc 100)]
  /\ outlier_indices "iqr" default_k data = Some [1%nat]
  /\ iqr_mask (values data) default_k 10 = false
  /\ outliers st (mkOutlierArgs (Some "temperature"%string) (Some "iqr"%string) None)
     = Ok (mkReport "iqr" "temperature" (3 # 2) 1 [example_doc 10]).
Proof. cbv zeta. repeat split. Qed.

(** With the flagged value in the last row, the label is past the end of
    the frame and the selection raises. *)
Lemma outliers_raises :
  let st := load_and_clean_data [latitude; temperature] (missing_reading :: five_readings) in
  outlier_indices "iqr" default_k (series temperature (after_dropna [latitude; temperature] (missing_reading :: five_readings))) = Some [5%nat]
  /\ outliers st (mkOutlierArgs (Some "temperature"%string) (Some "iqr"%string) None)
     = Error 500 "positional indexers are out-of-bounds".
Proof. cbv zeta. repeat split. Qed.

(** On a frame whose labels are the positions (no row was dropped at
    ingestion), the handler returns exactly the rows its mask flags, in the
    order of the frame, each as it is stored, provided each of them has a
    timestamp. *)
Lemma outliers_when_labels_are_positions
  (st : state) (df : DataFrame) (c : column) (method : string) (k : Q)
  (mask : Q -> bool) :
  cleaned_df st = Some df ->
  has_column c (columns df) = true -> c <> timestamp ->
  map fst (rows df) = seq 0 (len df) ->
  outlier_mask method (values (series c df)) k = Some mask ->
  forallb serializable (map snd (filter (keeps c mask) (rows df))) = true ->
  outliers st (mkOutlierArgs (Some (column_name c)) (Some method) (Some k))
  = Ok (mkReport method (column_name c) k
          (length (filter (keeps c mask) (rows df)))
          (map snd (filter (keeps c mask) (rows df)))).
Proof.
  intros Hdf Hc Hts Hlabels Hmask Hjson. unfold outliers. rewrite Hdf.
  simpl args_get. rewrite (find_column_name c _ Hc).
  assert (E : outlier_indices method k (series c df)
              = Some (flagged mask (series c df)))
    by (unfold outlier_indices; rewrite Hmask; reflexivity).
  destruct c; try congruence;
    rewrite E, (iloc_flagged _ mask df Hlabels), Hjson, length_map; reflexivity.
Qed.





(** * Further properties of the handlers, the script and the dashboard *)

(** * The query handler *)

Lemma Qle_bool_true (a b : Q) : Qle_bool a b = true <-> a <= b.
Proof. apply Qle_bool_iff. Qed.

Lemma in_bounds_Q (lo hi : option Q) (x : float) :
  in_bounds Qle_bool (fun h v => Qle_bool v h) (range_filter lo hi) x = true
  <-> satisfies Qle lo hi x.
Proof.
  unfold range_filter, satisfies, in_bounds.
  destruct lo as [l|], hi as [h|]; simpl; try tauto;
    (destruct x as [v|]; simpl;
     [ rewrite ?andb_true_iff, ?Qle_bool_iff; split;
       [ intros H; exists v; split; [reflexivity|];
         split; intros ? [= <-]; tauto
       | intros [w [[= <-] [H1 H2]]]; repeat split; auto ]
     | split; [discriminate | intros [w [H _]]; discriminate] ]).
Qed.

Lemma in_bounds_string (lo hi : option string) (x : option string) :
  in_bounds String.leb (fun h v => String.leb v h) (date_filter lo hi) x = true
  <-> satisfies string_le (given lo) (given hi) x.
Proof.
  unfold date_filter, given, satisfies, in_bounds, string_le.
  destruct (truthy lo) eqn:El, (truthy hi) eqn:Eh; simpl;
    try (destruct lo as [l|]; [|discriminate]);
    try (destruct hi as [h|]; [|discriminate]); try tauto;
    (destruct x as [v|]; simpl;
     [ rewrite ?andb_true_iff; split;
       [ intros H; exists v; split; [reflexivity|];
         split; intros ? [= <-]; tauto
       | intros [w [[= <-] [H1 H2]]]; repeat split; auto ]
     | split; [discriminate | intros [w [H _]]; discriminate] ]).
Qed.

Lemma matches_spec (a : obs_args) (d : row) :
  matches (build_query a) d = true
  <-> satisfies string_le (given (a_start a)) (given (a_end a)) (r_timestamp d)
      /\ satisfies Qle (a_min_temp a) (a_max_temp a) (r_temperature d)
      /\ satisfies Qle (a_min_sal a) (a_max_sal a) (r_salinity d)
      /\ satisfies Qle (a_min_odo a) (a_max_odo a) (r_odo d).
Proof.
  unfold matches, build_query. simpl.
  rewrite !andb_true_iff, !in_bounds_Q, in_bounds_string. tauto.
Qed.

(** X1. The documents that match a request are the stored documents within
    every bound it gives (a bound on a field excludes the documents without
    a value in it; an empty start or end is no bound).  An answered request
    counts them all, and every item of its page is one of them and has a
    timestamp; the request is answered when every matching document has
    one. *)
Theorem observations_items_within_bounds (st : state) (a : obs_args) :
  let found := filter (matches (build_query a)) (collection st) in
  (forall d, In d found
             <-> In d (collection st)
                 /\ satisfies string_le (given (a_start a)) (given (a_end a))
                      (r_timestamp d)
                 /\ satisfies Qle (a_min_temp a) (a_max_temp a) (r_temperature d)
                 /\ satisfies Qle (a_min_sal a) (a_max_sal a) (r_salinity d)
                 /\ satisfies Qle (a_min_odo a) (a_max_odo a) (r_odo d))
  /\ (forall p,
        observations st a = Ok p ->
        count p = length found
        /\ incl (items p) found
        /\ forall d, In d (items p) -> r_timestamp d <> None)
  /\ ((forall d, In d found -> r_timestamp d <> None) ->
      exists p, observations st a = Ok p).
Proof.
  cbv zeta. split; [|split].
  - intros d. rewrite filter_In, matches_spec. tauto.
  - intros p Hp. apply observations_Ok in Hp. cbv zeta in Hp.
    destruct Hp as [-> Hjson]. cbn [count items].
    split; [reflexivity|]. split; [apply cursor_incl|].
    intros d Hd. rewrite forallb_forall in Hjson.
    apply serializable_timestamp, Hjson, Hd.
  - apply observations_answered.
Qed.

Lemma firstn_plus {A : Type} (n m : nat) (l : list A) :
  firstn (n + m) l = firstn n l ++ firstn m (skipn n l).
Proof.
  revert l. induction n as [|n IH]; intros l; [reflexivity|].
  destruct l as [|x l]; simpl.
  - rewrite firstn_nil. reflexivity.
  - rewrite IH. reflexivity.
Qed.

Lemma cursor_pages {A : Type} (skip l1 l2 : Z) (xs : list A) :
  (0 <= skip)%Z -> (1 <= l1)%Z -> (1 <= l2)%Z ->
  cursor skip l1 xs ++ cursor (skip + l1) l2 xs = cursor skip (l1 + l2) xs.
Proof.
  intros Hs H1 H2. unfold cursor, slice_from, slice_to.
  destruct (Z.leb_spec 0 skip); [|lia].
  destruct (Z.leb_spec 0 (skip + l1)); [|lia].
  destruct (Z.eqb_spec l1 0); [lia|].
  destruct (Z.eqb_spec l2 0); [lia|].
  destruct (Z.eqb_spec (l1 + l2) 0); [lia|].
  destruct (Z.leb_spec 0 (Z.abs l1)); [|lia].
  destruct (Z.leb_spec 0 (Z.abs l2)); [|lia].
  destruct (Z.leb_spec 0 (Z.abs (l1 + l2))); [|lia].
  rewrite !Z.abs_eq by lia.
  rewrite !Z2Nat.inj_add by lia.
  rewrite firstn_plus. f_equal. f_equal.
  rewrite Nat.add_comm. symmetry. apply skipn_skipn.
Qed.

(** X2. For a non-negative skip and limits of at least 1 whose sum is at most
    1000, the page of [l1] documents at [skip] followed by the page of [l2]
    documents at [skip + l1] is the page of [l1 + l2] documents at [skip]:
    paging through a query misses and repeats nothing.  The large page is
    answered exactly when the two small ones are. *)
Theorem observations_pages_compose (st : state) (a : obs_args) (skip l1 l2 : Z) :
  (0 <= skip)%Z -> (1 <= l1)%Z -> (1 <= l2)%Z -> (l1 + l2 <= hard_limit)%Z ->
  let first := observations st (with_paging a (Some l1) (Some skip)) in
  let second := observations st (with_paging a (Some l2) (Some (skip + l1)%Z)) in
  let both := observations st (with_paging a (Some (l1 + l2)%Z) (Some skip)) in
  (forall p,
     both = Ok p ->
     exists p1 p2,
       first = Ok p1 /\ second = Ok p2
       /\ items p1 ++ items p2 = items p
       /\ count p1 = count p /\ count p2 = count p)
  /\ (forall p1 p2,
        first = Ok p1 -> second = Ok p2 ->
        exists p, both = Ok p /\ items p1 ++ items p2 = items p).
Proof.
  intros Hs H1 H2 Hl. unfold hard_limit in Hl. cbv zeta.
  set (found := filter (matches (build_query a)) (collection st)).
  assert (E : cursor skip l1 found ++ cursor (skip + l1) l2 found
              = cursor skip (l1 + l2) found) by (apply cursor_pages; assumption).
  assert (E1 : effective_limit (with_paging a (Some l1) (Some skip)) = l1)
    by (unfold effective_limit, hard_limit; simpl; lia).
  assert (E2 : effective_limit (with_paging a (Some l2) (Some (skip + l1)%Z)) = l2)
    by (unfold effective_limit, hard_limit; simpl; lia).
  assert (E3 : effective_limit (with_paging a (Some (l1 + l2)%Z) (Some skip)) = (l1 + l2)%Z)
    by (unfold effective_limit, hard_limit; simpl; lia).
  unfold observations. rewrite E1, E2, E3.
  change (effective_skip (with_paging a (Some l1) (Some skip))) with skip.
  change (effective_skip (with_paging a (Some l2) (Some (skip + l1)%Z)))
    with (skip + l1)%Z.
  change (effective_skip (with_paging a (Some (l1 + l2)%Z) (Some skip))) with skip.
  change (build_query (with_paging a (Some l1) (Some skip))) with (build_query a).
  change (build_query (with_paging a (Some l2) (Some (skip + l1)%Z)))
    with (build_query a).
  change (build_query (with_paging a (Some (l1 + l2)%Z) (Some skip)))
    with (build_query a).
  fold found. rewrite <- E, forallb_app.
  destruct (forallb serializable (cursor skip l1 found)),
    (forallb serializable (cursor (skip + l1) l2 found)); simpl.
  - split.
    + intros p [= <-]. do 2 eexists. repeat split.
    + intros p1 p2 [= <-] [= <-]. eexists. split; reflexivity.
  - split; [intros p H; discriminate H|intros p1 p2 _ H; discriminate H].
  - split; [intros p H; discriminate H|intros p1 p2 H; discriminate H].
  - split; [intros p H; discriminate H|intros p1 p2 H; discriminate H].
Qed.

Lemma observations_pages_compose_witness :
  exists p,
    observations example_store
      (with_paging (no_filter None None) (Some (1 + 2)%Z) (Some 0%Z)) = Ok p
    /\ items p = [example_doc 20; example_doc 21; example_doc 22].
Proof.
  destruct (proj2 (observations_pages_compose example_store (no_filter None None)
                     0 1 2 ltac:(lia) ltac:(lia) ltac:(lia)
                     ltac:(unfold hard_limit; lia))
              (mkPage 3 1 [example_doc 20])
              (mkPage 3 2 [example_doc 21; example_doc 22])
              eq_refl eq_refl) as [p [Hp Hitems]].
  exists p. split; [exact Hp|]. symmetry. exact Hitems.
Defined.

(** * The stored records *)

(** The frame after the column selection, before any row is dropped. *)
Lemma rows_select_read_csv (cols : list column) (rs : list row) :
  let df := read_csv cols rs in
  rows (select (available_columns df) df)
  = combine (seq 0 (length rs)) (map (restrict (available_columns df)) rs).
Proof.
  cbv zeta. unfold select, read_csv. simpl rows.
  generalize 0%nat. induction rs as [|r rs IH]; intros n; [reflexivity|].
  simpl. f_equal. apply IH.
Qed.

Lemma cleaned_rows (cols : list column) (rs : list row) :
  let df0 := read_csv cols rs in
  let df := after_dropna cols rs in
  exists cleaned,
    cleaned_df (load_and_clean_data cols rs) = Some cleaned
    /\ collection (load_and_clean_data cols rs) = map snd (rows cleaned)
    /\ columns cleaned = available_columns df0
    /\ rows cleaned
       = filter (fun lr => zscore_mask (numeric_available df) df (snd lr))
           (filter (fun lr => forallb (fun c => notna (cell c (snd lr)))
                                (numeric_available df))
              (combine (seq 0 (length rs))
                 (map (restrict (available_columns df0)) rs))).
Proof.
  cbv zeta. eexists. split; [reflexivity|]. split; [reflexivity|].
  split; [reflexivity|].
  unfold boolean_index, after_dropna, dropna. cbn [rows].
  rewrite rows_select_read_csv. reflexivity.
Qed.

Lemma has_column_In (c : column) (cols : list column) :
  has_column c cols = true <-> In c cols.
Proof.
  unfold has_column. rewrite existsb_exists. split.
  - intros [x [Hx E]]. apply column_eqb_eq in E. subst. exact Hx.
  - intros H. exists c. split; [exact H|]. apply column_eqb_eq. reflexivity.
Qed.

(** The numeric columns of the frame are the ones the source has. *)
Lemma numeric_available_source (cols : list column) (rs : list row) (c : column) :
  In c (numeric_available (after_dropna cols rs))
  <-> In c numeric_columns /\ In c cols.
Proof.
  unfold numeric_available.
  change (columns (after_dropna cols rs)) with (available_columns (read_csv cols rs)).
  rewrite filter_In, has_column_In. unfold available_columns.
  rewrite filter_In, has_column_In.
  unfold numeric_columns, required_columns, read_csv. simpl.
  intuition (subst; auto; try discriminate).
Qed.

(** X3. After ingestion every stored record has a value in each of
    temperature, salinity and odo that the source has as a column. *)
Theorem stored_records_complete (cols : list column) (rs : list row)
  (c : column) (r : row) :
  In c numeric_columns -> In c cols ->
  In r (collection (load_and_clean_data cols rs)) ->
  exists x, cell c r = Some x.
Proof.
  intros Hn Hc Hr.
  destruct (cleaned_rows cols rs) as [cleaned [_ [Hcoll [_ Hrows]]]].
  rewrite Hcoll in Hr. apply in_map_iff in Hr. destruct Hr as [lr [<- Hlr]].
  rewrite Hrows in Hlr. apply filter_In in Hlr. destruct Hlr as [Hlr _].
  apply filter_In in Hlr. destruct Hlr as [_ Hna].
  rewrite forallb_forall in Hna.
  specialize (Hna c (proj2 (numeric_available_source cols rs c) (conj Hn Hc))).
  destruct (cell c (snd lr)) as [x|]; [exists x; reflexivity|discriminate].
Qed.

Lemma stored_records_complete_witness :
  exists x, cell temperature (example_doc 21) = Some x.
Proof.
  apply (stored_records_complete [temperature]
           [example_doc 20; example_doc 21; example_doc 22] temperature (example_doc 21)).
  - simpl. auto.
  - simpl. auto.
  - vm_compute. auto.
Defined.

Lemma filter_filter_andb {A : Type} (f g : A -> bool) (l : list A) :
  filter f (filter g l) = filter (fun x => g x && f x) l.
Proof.
  induction l as [|x l IH]; [reflexivity|]. simpl.
  destruct (g x); simpl; [destruct (f x)|]; rewrite IH; reflexivity.
Qed.

(** X4. Ingestion stores a selection of the source rows, each restricted to
    the available columns, in source order and labelled by its position in
    the source. *)
Theorem stored_records_from_source (cols : list column) (rs : list row) :
  let st := load_and_clean_data cols rs in
  let avail := available_columns (read_csv cols rs) in
  exists cleaned keep,
    cleaned_df st = Some cleaned
    /\ rows cleaned
       = filter keep (combine (seq 0 (length rs)) (map (restrict avail) rs))
    /\ collection st = map snd (rows cleaned)
    /\ (forall label r, In (label, r) (rows cleaned) ->
          nth_error (map (restrict avail) rs) label = Some r).
Proof.
  cbv zeta. destruct (cleaned_rows cols rs) as [cleaned [Hc [Hcoll [_ Hrows]]]].
  exists cleaned.
  exists (fun lr =>
            forallb (fun c => notna (cell c (snd lr)))
              (numeric_available (after_dropna cols rs))
            && zscore_mask (numeric_available (after_dropna cols rs))
                 (after_dropna cols rs) (snd lr)).
  split; [exact Hc|].
  split; [rewrite Hrows; apply filter_filter_andb|].
  split; [exact Hcoll|].
  intros label r Hin. rewrite Hrows in Hin.
  apply filter_In in Hin. destruct Hin as [Hin _].
  apply filter_In in Hin. destruct Hin as [Hin _].
  set (l := map _ rs) in *. rewrite <- (length_map (restrict (available_columns (read_csv cols rs))) rs) in Hin.
  fold l in Hin. clearbody l. revert Hin.
  change label with (0 + label)%nat at 2.
  assert (G : forall n (l : list row) label r, In (label, r) (combine (seq n (length l)) l) ->
             exists k, label = (n + k)%nat /\ nth_error l k = Some r).
  { clear. intros n l. revert n. induction l as [|x l IH]; intros n label r H; [destruct H|].
    simpl in H. destruct H as [[= <- <-]|H].
    - exists 0%nat. split; [lia|reflexivity].
    - destruct (IH (S n) label r H) as [k [-> Hk]]. exists (S k). split; [lia|exact Hk]. }
  intros Hin. destruct (G 0%nat l label r Hin) as [k [-> Hk]]. exact Hk.
Qed.

(** * Invariants of the process *)

Lemma filter_no_filter (l : list row) (limit skip : option Z) :
  filter (matches (build_query (no_filter limit skip))) l = l.
Proof. induction l as [|d l IH]; [reflexivity|]. simpl. f_equal. exact IH. Qed.

Lemma load_invariant (cols : list column) (rs : list row) :
  let st := load_and_clean_data cols rs in
  (0 <= removed_count st <= original_count st)%Z
  /\ rows_remaining (summary st) = Z.of_nat (length (collection st))
  /\ (original_count st = removed_count st + rows_remaining (summary st))%Z.
Proof.
  cbv zeta. unfold load_and_clean_data, summary. simpl.
  unfold to_dict_records. rewrite length_map.
  set (df := dropna _ _).
  assert (H1 : (len (boolean_index (zscore_mask (numeric_available (select (available_columns (read_csv cols rs)) (read_csv cols rs))) df) df) <= len df)%nat).
  { unfold len, boolean_index. simpl. apply filter_length_le. }
  assert (H2 : (len df <= len (read_csv cols rs))%nat).
  { unfold df, len, dropna. simpl. rewrite filter_length_le.
    rewrite length_map. apply Nat.le_refl. }
  unfold len in *. simpl in *. lia.
Qed.

Lemma reachable_counts (es : list event) :
  (0 <= removed_count (run es) <= original_count (run es))%Z
  /\ rows_remaining (summary (run es)) = Z.of_nat (length (collection (run es)))
  /\ (original_count (run es)
      = removed_count (run es) + rows_remaining (summary (run es)))%Z.
Proof.
  unfold run. induction es as [|e es IH] using rev_ind.
  - simpl. lia.
  - rewrite fold_left_app. simpl. destruct e as [cols rs|r].
    + apply load_invariant.
    + exact IH.
Qed.

(** X5. In every state the process reaches, the removed count lies between
    0 and the original count, the remaining count is the number of stored
    documents, and every answer to a query without bounds counts exactly
    that many. *)
Theorem state_invariants (es : list event) (limit skip : option Z) :
  let st := run es in
  (0 <= removed_count st <= original_count st)%Z
  /\ (0 <= rows_remaining (summary st) <= original_rows (summary st))%Z
  /\ rows_remaining (summary st) = Z.of_nat (length (collection st))
  /\ forall p,
       observations st (no_filter limit skip) = Ok p ->
       Z.of_nat (count p) = rows_remaining (summary st).
Proof.
  cbv zeta. destruct (reachable_counts es) as [H1 [H2 H3]].
  split; [exact H1|]. split.
  { change (original_rows (summary (run es))) with (original_count (run es)). lia. }
  split; [exact H2|].
  intros p Hp. apply observations_Ok in Hp. cbv zeta in Hp. destruct Hp as [-> _].
  cbn [count]. rewrite filter_no_filter. symmetry. exact H2.
Qed.

(** * Filters on a column the source lacks *)

Lemma cursor_nil {A : Type} (skip limit : Z) : cursor skip limit (@nil A) = [].
Proof.
  unfold cursor, slice_from, slice_to.
  destruct (0 <=? skip)%Z, (limit =? 0)%Z, (0 <=? Z.abs limit)%Z;
    rewrite ?skipn_nil, ?firstn_nil; reflexivity.
Qed.

Lemma collection_restricted (cols : list column) (rs : list row) (d : row) :
  In d (collection (load_and_clean_data cols rs)) ->
  exists r, In r rs /\ d = restrict (available_columns (read_csv cols rs)) r.
Proof.
  intros Hd. destruct (cleaned_rows cols rs) as [cleaned [_ [Hcoll [_ Hrows]]]].
  rewrite Hcoll in Hd. apply in_map_iff in Hd. destruct Hd as [[l d'] [E Hin]].
  simpl in E. subst d'. rewrite Hrows in Hin.
  apply filter_In in Hin. destruct Hin as [Hin _].
  apply filter_In in Hin. destruct Hin as [Hin _].
  apply in_combine_r in Hin. apply in_map_iff in Hin.
  destruct Hin as [r [E Hr]]. exists r. split; [exact Hr|symmetry; exact E].
Qed.

Lemma absent_column_cell (cols : list column) (rs : list row) (c : column) (d : row) :
  c <> timestamp -> ~ In c cols ->
  In d (collection (load_and_clean_data cols rs)) -> cell c d = None.
Proof.
  intros Hts Hc Hd. destruct (collection_restricted cols rs d Hd) as [r [_ ->]].
  assert (E : has_column c (available_columns (read_csv cols rs)) = false).
  { destruct (has_column c (available_columns (read_csv cols rs))) eqn:E; [|reflexivity].
    exfalso. apply has_column_In in E. unfold available_columns in E.
    apply filter_In in E. destruct E as [_ E]. apply has_column_In in E.
    unfold read_csv in E. simpl in E. destruct E as [E|E]; [congruence|contradiction]. }
  destruct c; try congruence; unfold restrict;
    cbn [cell r_latitude r_longitude r_temperature r_salinity r_odo];
    rewrite E; reflexivity.
Qed.

(** X6. When the source lacks the temperature, salinity or odo column, a
    query with a bound on that field matches nothing. *)
Theorem filter_on_absent_column (cols : list column) (rs : list row) (a : obs_args) :
  (~ In temperature cols /\ (a_min_temp a <> None \/ a_max_temp a <> None))
  \/ (~ In salinity cols /\ (a_min_sal a <> None \/ a_max_sal a <> None))
  \/ (~ In odo cols /\ (a_min_odo a <> None \/ a_max_odo a <> None)) ->
  observations (load_and_clean_data cols rs) a = Ok (mkPage 0 0 []).
Proof.
  intros H. unfold observations.
  assert (E : filter (matches (build_query a)) (collection (load_and_clean_data cols rs)) = []).
  { set (l := collection _).
    assert (Hl : forall c d, c <> timestamp -> ~ In c cols -> In d l -> cell c d = None).
    { intros c d Hts Hc Hd. apply (absent_column_cell cols rs c d); assumption. }
    clearbody l. induction l as [|d l IH]; [reflexivity|].
    simpl. assert (Hm : matches (build_query a) d = false).
    { destruct (matches (build_query a) d) eqn:E; [|reflexivity].
      apply matches_spec in E. destruct E as [_ [Et [Es Eo]]].
      unfold satisfies in Et, Es, Eo.
      destruct H as [[Hc Hb]|[[Hc Hb]|[Hc Hb]]].
      - pose proof (Hl temperature d ltac:(discriminate) Hc (or_introl eq_refl)) as Hn.
        simpl in Hn. rewrite Hn in Et.
        destruct (a_min_temp a), (a_max_temp a);
          [destruct Et as [v [Et _]]; discriminate ..|destruct Hb; congruence].
      - pose proof (Hl salinity d ltac:(discriminate) Hc (or_introl eq_refl)) as Hn.
        simpl in Hn. rewrite Hn in Es.
        destruct (a_min_sal a), (a_max_sal a);
          [destruct Es as [v [Es _]]; discriminate ..|destruct Hb; congruence].
      - pose proof (Hl odo d ltac:(discriminate) Hc (or_introl eq_refl)) as Hn.
        simpl in Hn. rewrite Hn in Eo.
        destruct (a_min_odo a), (a_max_odo a);
          [destruct Eo as [v [Eo _]]; discriminate ..|destruct Hb; congruence]. }
    rewrite Hm. apply IH. intros c d' Hts Hc Hd'. apply Hl; [exact Hts|exact Hc|right; exact Hd']. }
  rewrite E, cursor_nil. reflexivity.
Qed.

Lemma filter_on_absent_column_witness :
  observations (load_and_clean_data [latitude] [missing_reading])
    (mkObsArgs None None (Some 0) None None None None None None None)
  = Ok (mkPage 0 0 []).
Proof.
  apply (filter_on_absent_column [latitude] [missing_reading]).
  left. split.
  - simpl. intros [H|[]]. discriminate H.
  - left. discriminate.
Defined.

(** * The reported statistics *)

Lemma interpolate_0 (v : list Q) : interpolate v 0 == nth 0 v 0.
Proof.
  unfold interpolate.
  assert (E : inject_Z (Z.of_nat (length v) - 1) * 0 == 0) by ring.
  rewrite (Qfloor_comp _ _ E). rewrite E. change (Qfloor 0) with 0%Z. simpl Z.to_nat.
  change (inject_Z 0) with 0. ring.
Qed.

Lemma interpolate_1 (v : list Q) :
  v <> [] -> interpolate v 1 == nth (length v - 1) v 0.
Proof.
  intros Hne. unfold interpolate.
  assert (Hn : (1 <= length v)%nat) by (destruct v; [congruence|simpl; lia]).
  assert (E : inject_Z (Z.of_nat (length v) - 1) * 1 == inject_Z (Z.of_nat (length v) - 1)) by ring.
  rewrite (Qfloor_comp _ _ E). rewrite E. rewrite Qfloor_Z.
  replace (Z.to_nat (Z.of_nat (length v) - 1)) with (length v - 1)%nat by lia.
  replace (Nat.min (S (length v - 1)) (length v - 1)) with (length v - 1)%nat by lia.
  ring.
Qed.

Lemma quantile_bounds (data : list Q) (q lo hi : Q) :
  data <> [] -> 0 <= q -> q <= 1 ->
  (forall y, In y data -> lo <= y /\ y <= hi) ->
  exists v, quantile data q = Some v /\ lo <= v /\ v <= hi.
Proof.
  intros Hne H0 H1 Hb. unfold quantile. destruct data as [|x data]; [congruence|].
  eexists. split; [reflexivity|].
  set (v := QSort.sort (x :: data)).
  assert (Hv : v <> []).
  { intros E. apply (f_equal (@length Q)) in E. unfold v in E.
    rewrite length_sort in E. discriminate. }
  assert (Hn : (1 <= length v)%nat) by (destruct v; [congruence|simpl; lia]).
  assert (Hin : forall i, (i < length v)%nat -> lo <= nth i v 0 /\ nth i v 0 <= hi).
  { intros i Hi. apply Hb. apply (Permutation_in _ (Permutation_sym (QSort.Permuted_sort (x :: data)))).
    apply nth_In. exact Hi. }
  pose proof (sort_strongly_sorted (x :: data)) as Hs. fold v in Hs.
  pose proof (interpolate_mono v 0 q Hs Hv ltac:(apply Qle_refl) H0 H1) as M0.
  pose proof (interpolate_mono v q 1 Hs Hv H0 H1 ltac:(apply Qle_refl)) as M1.
  rewrite interpolate_0 in M0. rewrite (interpolate_1 v Hv) in M1.
  destruct (Hin 0%nat ltac:(lia)) as [A _].
  destruct (Hin (length v - 1)%nat ltac:(lia)) as [_ B].
  split; lra.
Qed.

Lemma run_cases (es : list event) :
  run es = initial_state \/ exists cols rs, run es = load_and_clean_data cols rs.
Proof.
  unfold run. induction es as [|e es IH] using rev_ind; [left; reflexivity|].
  rewrite fold_left_app. simpl. destruct e as [cols rs|r]; [|exact IH].
  right. exists cols, rs. reflexivity.
Qed.

Lemma stats_body (st : state) (body : list (column * col_stats)) :
  stats_endpoint st = Ok body ->
  exists df, cleaned_df st = Some df
             /\ body = map (fun c => (c, describe (values (series c df))))
                         (numeric_available df).
Proof.
  unfold stats_endpoint. destruct (cleaned_df st) as [df|]; [|discriminate].
  destruct (numeric_available df) as [|c cs] eqn:E; [discriminate|].
  destruct (numeric_dtype df); [|discriminate].
  intros [= <-]. exists df. split; [reflexivity|]. rewrite E. reflexivity.
Qed.

Lemma in_series (c : column) (df : DataFrame) (l : nat) (x : Q) :
  In (l, x) (series c df) <-> exists r, In (l, r) (rows df) /\ cell c r = Some x.
Proof.
  unfold series. rewrite in_flat_map. split.
  - intros [[l' r] [Hin H]]. simpl in H. destruct (cell c r) as [y|] eqn:E; [|destruct H].
    destruct H as [[= <- <-]|[]]. exists r. split; assumption.
  - intros [r [Hin E]]. exists (l, r). split; [exact Hin|]. simpl. rewrite E. left. reflexivity.
Qed.

Lemma length_series_complete (c : column) (df : DataFrame) :
  (forall lr, In lr (rows df) -> exists x, cell c (snd lr) = Some x) ->
  length (values (series c df)) = len df.
Proof.
  unfold values, series, len. rewrite length_map.
  induction (rows df) as [|lr l IH]; intros H; [reflexivity|]. simpl.
  destruct (H lr (or_introl eq_refl)) as [x E]. rewrite E. simpl.
  f_equal. apply IH. intros lr' H'. apply H. right. exact H'.
Qed.

(** The frame of a reachable state holds a value in each of its numeric
    columns, on every row. *)
Lemma reachable_complete (es : list event) (df : DataFrame) (c : column)
  (lr : nat * row) :
  cleaned_df (run es) = Some df -> In c (numeric_available df) ->
  In lr (rows df) -> exists x, cell c (snd lr) = Some x.
Proof.
  destruct (run_cases es) as [->|[cols [rs ->]]]; [discriminate|].
  rewrite load_cleaned. intros [= <-] Hc Hlr.
  apply In_boolean_index in Hlr. destruct Hlr as [Hlr _].
  exact (after_dropna_cells cols rs lr Hlr c Hc).
Qed.

(** X7. In every reachable state, each field the statistics report is one
    of temperature, salinity and odo, and its count is the number of
    remaining rows. *)
Theorem stats_count_is_rows_remaining
  (es : list event) (body : list (column * col_stats)) (c : column) (s : col_stats) :
  stats_endpoint (run es) = Ok body -> In (c, s) body ->
  s_count s = rows_remaining (summary (run es))
  /\ In c numeric_columns.
Proof.
  intros Hb Hin. destruct (stats_body _ _ Hb) as [df [Hdf ->]].
  apply in_map_iff in Hin. destruct Hin as [c' [[= <- <-] Hc]].
  split.
  - unfold summary. rewrite Hdf. simpl. f_equal.
    apply length_series_complete. intros lr Hlr.
    exact (reachable_complete es df c' lr Hdf Hc Hlr).
  - unfold numeric_available in Hc. apply filter_In in Hc. tauto.
Qed.

Lemma stats_count_is_rows_remaining_witness :
  s_count (describe [20; 21; 22]) = rows_remaining (summary (run [Ingest [temperature] [example_doc 20; example_doc 21; example_doc 22]]))
  /\ In temperature numeric_columns.
Proof.
  apply (stats_count_is_rows_remaining
           [Ingest [temperature] [example_doc 20; example_doc 21; example_doc 22]]
           [(temperature, describe [20; 21; 22])]).
  - reflexivity.
  - left. reflexivity.
Defined.

(** * Rejected outlier requests *)

Lemma find_column_absent (name : string) (cols : list column) :
  ~ In name (map column_name cols) -> find_column name cols = None.
Proof.
  unfold find_column. induction cols as [|c cols IH]; intros H; [reflexivity|].
  simpl. destruct (String.eqb (column_name c) name) eqn:E.
  - apply String.eqb_eq in E. exfalso. apply H. left. exact E.
  - apply IH. intros H'. apply H. right. exact H'.
Qed.

Lemma outlier_mask_unknown (method : string) (data : list Q) (k : Q) :
  method <> "iqr"%string -> method <> "zscore"%string ->
  outlier_mask method data k = None.
Proof.
  intros H1 H2. unfold outlier_mask.
  apply String.eqb_neq in H1, H2. rewrite H1, H2. reflexivity.
Qed.

(** X10. Outlier requests are rejected in this order: without loaded data
    with status 500; for a field that is no column of the frame with status
    400, whatever the method; for a column and a method other than 'iqr'
    and 'zscore' with status 400. *)
Theorem outliers_rejections (st : state) (a : outlier_args) :
  let field := args_get (o_field a) "temperature"%string in
  let method := args_get (o_method a) "iqr"%string in
  (cleaned_df st = None -> outliers st a = Error 500 "Data not loaded")
  /\ (forall df, cleaned_df st = Some df ->
        ~ In field (map column_name (columns df)) ->
        outliers st a = Error 400 ("Field '" ++ field ++ "' not found"))
  /\ (forall df c, cleaned_df st = Some df ->
        In c (columns df) -> c <> timestamp -> field = column_name c ->
        method <> "iqr"%string -> method <> "zscore"%string ->
        outliers st a = Error 400 "Method must be 'iqr' or 'zscore'").
Proof.
  cbv zeta. unfold outliers. split; [intros ->; reflexivity|]. split.
  - intros df -> H. rewrite (find_column_absent _ _ H). reflexivity.
  - intros df c -> Hc Hts -> H1 H2.
    rewrite (find_column_name c (columns df)) by (apply has_column_In, Hc).
    unfold outlier_indices. rewrite (outlier_mask_unknown _ _ _ H1 H2).
    destruct c; try congruence; reflexivity.
Qed.

Lemma outliers_rejections_witness :
  outliers initial_state (mkOutlierArgs None None None) = Error 500 "Data not loaded"
  /\ outliers example_store (mkOutlierArgs (Some "depth"%string) (Some "median"%string) None)
     = Error 400 "Field 'depth' not found"
  /\ outliers example_store (mkOutlierArgs None (Some "median"%string) None)
     = Error 400 "Method must be 'iqr' or 'zscore'".
Proof.
  split; [|split].
  - apply (proj1 (outliers_rejections initial_state (mkOutlierArgs None None None))).
    reflexivity.
  - apply (proj1 (proj2 (outliers_rejections example_store
             (mkOutlierArgs (Some "depth"%string) (Some "median"%string) None)))
             (mkFrame [timestamp; temperature]
                (combine (seq 0 3) [example_doc 20; example_doc 21; example_doc 22]))).
    + reflexivity.
    + simpl. intros [H|[H|[]]]; discriminate H.
  - apply (proj2 (proj2 (outliers_rejections example_store
             (mkOutlierArgs None (Some "median"%string) None)))
             (mkFrame [timestamp; temperature]
                (combine (seq 0 3) [example_doc 20; example_doc 21; example_doc 22]))
             temperature).
    + reflexivity.
    + simpl. auto.
    + discriminate.
    + reflexivity.
    + discriminate.
    + discriminate.
Defined.

(** * The IQR band *)



(** * IQR detection on a constant field *)

Lemma flagged_none_on (mask : Q -> bool) (data : list (nat * Q)) :
  (forall x, In x (values data) -> mask x = false) -> flagged mask data = [].
Proof.
  unfold flagged, values. induction data as [|lx data IH]; intros H; [reflexivity|].
  simpl. rewrite (H (snd lx)) by (left; reflexivity).
  apply IH. intros x Hx. apply H. right. exact Hx.
Qed.

Lemma iqr_mask_constant (data : list Q) (k x : Q) :
  constant data -> In x data -> iqr_mask data k x = false.
Proof.
  intros Hc Hx.
  assert (Hne : data <> []) by (intros E; rewrite E in Hx; destruct Hx).
  assert (Hb : forall y, In y data -> x <= y /\ y <= x).
  { intros y Hy. rewrite (Hc y x Hy Hx). split; apply Qle_refl. }
  destruct (quantile_bounds data (1 # 4) x x Hne ltac:(discriminate) ltac:(discriminate) Hb)
    as [q1 [E1 [A1 B1]]].
  destruct (quantile_bounds data (3 # 4) x x Hne ltac:(discriminate) ltac:(discriminate) Hb)
    as [q3 [E3 [A3 B3]]].
  assert (Z0 : k * (q3 - q1) == 0).
  { assert (D : q3 - q1 == 0) by lra. rewrite D. ring. }
  unfold iqr_mask. rewrite E1, E3. simpl. unfold fgt. simpl.
  apply orb_false_iff. split.
  - destruct (Qlt_bool x _) eqn:E; [|reflexivity]. apply Qlt_bool_iff in E. lra.
  - destruct (Qlt_bool _ x) eqn:E; [|reflexivity]. apply Qlt_bool_iff in E. lra.
Qed.

(** X12. On a field with a single distinct value (or no value) the IQR
    detection answers without an error and flags no record, for every [k]. *)
Theorem iqr_on_constant_field
  (st : state) (df : DataFrame) (c : column) (k : option Q) :
  cleaned_df st = Some df ->
  has_column c (columns df) = true -> c <> timestamp ->
  constant (values (series c df)) ->
  outliers st (mkOutlierArgs (Some (column_name c)) (Some "iqr"%string) k)
  = Ok (mkReport "iqr" (column_name c) (args_get k default_k) 0 []).
Proof.
  intros Hdf Hc Hts Hconst. unfold outliers. rewrite Hdf. simpl args_get.
  rewrite (find_column_name c _ Hc).
  assert (E : outlier_indices "iqr" (args_get k default_k) (series c df) = Some []).
  { unfold outlier_indices. simpl. f_equal. apply flagged_none_on.
    intros x Hx. apply iqr_mask_constant; assumption. }
  destruct c; try congruence; rewrite E; reflexivity.
Qed.

Lemma iqr_on_constant_field_witness :
  outliers (load_and_clean_data [temperature] twelve_readings)
    (mkOutlierArgs (Some "temperature"%string) (Some "iqr"%string) (Some 0))
  = Ok (mkReport "iqr" "temperature" 0 0 []).
Proof.
  apply (iqr_on_constant_field
           (load_and_clean_data [temperature] twelve_readings)
           (mkFrame [timestamp; temperature]
              (combine (seq 0 11) (map example_doc [20; 20; 20; 20; 20; 20; 20; 20; 20; 20; 20])))
           temperature (Some 0)).
  - reflexivity.
  - reflexivity.
  - discriminate.
  - intros x y Hx Hy. vm_compute in Hx, Hy.
    repeat (destruct Hx as [<-|Hx]; [repeat (destruct Hy as [<-|Hy]; [reflexivity|]); destruct Hy|]).
    destruct Hx.
Defined.

(** * A constant field at ingestion *)

Lemma filter_false {A : Type} (f : A -> bool) (l : list A) :
  (forall x, In x l -> f x = false) -> filter f l = [].
Proof.
  induction l as [|a l IH]; intros H; [reflexivity|]. simpl.
  rewrite (H a (or_introl eq_refl)). apply IH.
  intros x Hx. apply H. right. exact Hx.
Qed.

(** X16. When an available numeric field is constant over the rows that
    survive the required-field drop, the cleaning pass keeps no row: the
    store is empty and every source row counts as removed. *)
Theorem constant_field_empties_the_store
  (cols : list column) (rs : list row) (c : column) :
  let df := after_dropna cols rs in
  let st := load_and_clean_data cols rs in
  In c (numeric_available df) -> constant (values (series c df)) ->
  exists cleaned,
    cleaned_df st = Some cleaned /\ rows cleaned = []
    /\ collection st = []
    /\ removed_count st = original_count st.
Proof.
  cbv zeta. intros Hc Hconst. eexists. split; [apply load_cleaned|].
  assert (E : rows (boolean_index
                      (zscore_mask (numeric_available (after_dropna cols rs))
                         (after_dropna cols rs)) (after_dropna cols rs)) = []).
  { unfold boolean_index. cbn [rows]. apply filter_false. intros lr Hlr.
    unfold zscore_mask.
    destruct (forallb _ (numeric_available (after_dropna cols rs))) eqn:F; [|reflexivity].
    rewrite forallb_forall in F. specialize (F c Hc).
    destruct (after_dropna_cells cols rs lr Hlr c Hc) as [x Hx]. rewrite Hx in F.
    rewrite (zscore_abs_constant _ x Hconst) in F. discriminate. }
  split; [exact E|]. split.
  - change (collection (load_and_clean_data cols rs))
      with (map snd (rows (boolean_index
                      (zscore_mask (numeric_available (after_dropna cols rs))
                         (after_dropna cols rs)) (after_dropna cols rs)))).
    rewrite E. reflexivity.
  - unfold load_and_clean_data. cbn [removed_count original_count].
    change (len (boolean_index _ _)) with
      (length (rows (boolean_index
                      (zscore_mask (numeric_available (after_dropna cols rs))
                         (after_dropna cols rs)) (after_dropna cols rs)))).
    rewrite E. simpl. lia.
Qed.

Lemma constant_field_empties_the_store_witness :
  exists cleaned,
    cleaned_df (load_and_clean_data [temperature; salinity] constant_temperature)
    = Some cleaned
    /\ rows cleaned = []
    /\ collection (load_and_clean_data [temperature; salinity] constant_temperature) = []
    /\ removed_count (load_and_clean_data [temperature; salinity] constant_temperature)
       = original_count (load_and_clean_data [temperature; salinity] constant_temperature).
Proof.
  apply (constant_field_empties_the_store [temperature; salinity]
           constant_temperature temperature).
  - vm_compute. auto.
  - intros x y Hx Hy. vm_compute in Hx, Hy.
    destruct Hx as [<-|[<-|[<-|[]]]]; destruct Hy as [<-|[<-|[<-|[]]]]; reflexivity.
Defined.

(** * The batch script *)

Lemma map_snd_combine_seq {A : Type} (n : nat) (l : list A) :
  map snd (combine (seq n (length l)) l) = l.
Proof.
  revert n. induction l as [|a l IH]; intros n; [reflexivity|].
  simpl. f_equal. apply IH.
Qed.

Lemma cell_restrict (avail : list column) (c : column) (r : row) :
  has_column c avail = true -> cell c (restrict avail r) = cell c r.
Proof.
  intros H. destruct c; unfold restrict;
    cbn [cell r_latitude r_longitude r_temperature r_salinity r_odo];
    rewrite ?H; reflexivity.
Qed.

(** X18. One missing value in temperature, salinity or odo makes the batch
    script keep no row at all: it drops no incomplete row before the
    z-scores, and the z-scores of a column with a missing value are nan. *)
Theorem etl_missing_value_removes_every_row
  (cols : list column) (rs : list row) (r : row) (c : column) :
  (forall c', In c' etl_columns -> In c' cols) ->
  In r rs -> In c etl_columns -> cell c r = None ->
  exists kept, etl cols rs = Some kept /\ rows kept = [].
Proof.
  intros Hcols Hr Hc Hnone.
  assert (Hetl : forallb (fun c => has_column c cols) etl_columns = true).
  { apply forallb_forall. intros c' Hc'. apply has_column_In, Hcols, Hc'. }
  eexists. split; [unfold etl; rewrite Hetl; reflexivity|]. clear Hetl.
  unfold boolean_index, mkFrame. cbn [rows]. apply filter_false. intros lr Hlr.
  unfold etl_mask. destruct (forallb _ etl_columns) eqn:F; [|reflexivity].
  rewrite forallb_forall in F. specialize (F c Hc). cbn [rows] in F.
  unfold zscore_abs_propagate in F.
  assert (E : forallb notna (map (fun lr0 : nat * row => cell c (snd lr0))
                               (combine (seq 0 (length rs)) rs)) = false).
  { rewrite <- (map_map snd (cell c)), map_snd_combine_seq.
    destruct (forallb notna (map (cell c) rs)) eqn:G; [|reflexivity].
    rewrite forallb_forall in G. specialize (G (cell c r)).
    rewrite Hnone in G. discriminate G. apply in_map_iff. exists r. split; [exact Hnone|exact Hr]. }
  rewrite E in F. discriminate F.
Qed.

Lemma etl_missing_value_removes_every_row_witness :
  exists kept,
    etl [temperature; salinity; odo]
      [mkRow None None None (Some 1) (Some 2) (Some 3);
       mkRow None None None (Some 2) None (Some 3)] = Some kept
    /\ rows kept = [].
Proof.
  apply (etl_missing_value_removes_every_row [temperature; salinity; odo]
           [mkRow None None None (Some 1) (Some 2) (Some 3);
            mkRow None None None (Some 2) None (Some 3)]
           (mkRow None None None (Some 2) None (Some 3)) salinity).
  - intros c Hc. exact Hc.
  - right. left. reflexivity.
  - right. left. reflexivity.
  - reflexivity.
Defined.

(** * Requests of the dashboard *)





(** * The zoom of the map *)

Lemma Qlt_bool_false (a b : Q) : Qlt_bool a b = false <-> b <= a.
Proof.
  unfold Qlt_bool. rewrite negb_false_iff. apply Qle_bool_iff.
Qed.

(** X20. The zoom of the map lies between 12 and 15 and never grows when
    the extents grow; a nan extent of the latitudes gives 12, a nan extent
    of the longitudes is ignored. *)
Theorem zoom_level_range_and_order (lat lon lat' lon' : Q) (a b : float) :
  (12 <= zoom_level a b <= 15)%Z
  /\ zoom_level nan b = 12%Z
  /\ zoom_level (Some lat) nan = zoom_level (Some lat) (Some lat)
  /\ (lat <= lat' -> lon <= lon' ->
      (zoom_level (Some lat') (Some lon') <= zoom_level (Some lat) (Some lon))%Z).
Proof.
  split.
  { unfold zoom_level.
    repeat match goal with
           | |- context [if ?t then _ else _] => destruct t
           end; lia. }
  split; [destruct b; reflexivity|].
  split.
  { unfold zoom_level, py_max, fgt, flt. simpl.
    assert (E : Qlt_bool lat lat = false) by (apply Qlt_bool_false, Qle_refl).
    rewrite E. reflexivity. }
  intros H1 H2. unfold zoom_level, py_max, fgt, flt.
  destruct (Qlt_bool lat lon) eqn:A, (Qlt_bool lat' lon') eqn:B;
    try apply Qlt_bool_iff in A; try apply Qlt_bool_iff in B;
    try apply Qlt_bool_false in A; try apply Qlt_bool_false in B;
    repeat match goal with
           | |- context [Qlt_bool ?x ?y] =>
               let E := fresh "E" in
               destruct (Qlt_bool x y) eqn:E;
               [apply Qlt_bool_iff in E | apply Qlt_bool_false in E]
           end; try lia; exfalso; lra.
Qed.

(** * Tighter bounds *)

Lemma filter_length_mono {A : Type} (f g : A -> bool) (l : list A) :
  (forall x, f x = true -> g x = true) ->
  (length (filter f l) <= length (filter g l))%nat.
Proof.
  intros H. induction l as [|a l IH]; [apply Nat.le_refl|]. simpl.
  destruct (f a) eqn:E.
  - rewrite (H a E). simpl. lia.
  - destruct (g a); simpl; lia.
Qed.

Lemma satisfies_weaken (lo hi lo' hi' : option Q) (x : float) :
  (forall l, lo = Some l -> exists l', lo' = Some l' /\ l <= l') ->
  (forall h, hi = Some h -> exists h', hi' = Some h' /\ h' <= h) ->
  satisfies Qle lo' hi' x -> satisfies Qle lo hi x.
Proof.
  intros Hlo Hhi H.
  assert (G : lo <> None \/ hi <> None ->
              exists v, x = Some v
                        /\ (forall l, lo' = Some l -> l <= v)
                        /\ (forall h, hi' = Some h -> v <= h)).
  { intros Hsome. unfold satisfies in H.
    destruct lo' as [l2|], hi' as [h2|]; try exact H.
    destruct Hsome as [Hs|Hs].
    - destruct lo as [l|]; [|congruence].
      destruct (Hlo l eq_refl) as [l' [E _]]. discriminate E.
    - destruct hi as [h|]; [|congruence].
      destruct (Hhi h eq_refl) as [h' [E _]]. discriminate E. }
  unfold satisfies. destruct lo as [l|], hi as [h|]; try exact I;
    (destruct G as [v [Hv [H1 H2]]];
     [first [left; discriminate | right; discriminate]|];
     exists v; split; [exact Hv|]; split;
     [ intros l0 E0; try discriminate E0; injection E0 as <-;
       destruct (Hlo _ eq_refl) as [l' [E Hl]]; specialize (H1 l' E); lra
     | intros h0 E0; try discriminate E0; injection E0 as <-;
       destruct (Hhi _ eq_refl) as [h' [E Hh]]; specialize (H2 h' E); lra ]).
Qed.

(** X21. Tightening the temperature bounds of a request (raising or adding
    the lower one, lowering or adding the upper one) never increases the
    count: whenever the two requests are answered, the tighter one counts no
    more than the wider one and every item of it matches the wider one. *)
Theorem tighter_temperature_bounds_match_less
  (st : state) (a : obs_args) (lo hi lo' hi' : option Q) :
  (forall l, lo = Some l -> exists l', lo' = Some l' /\ l <= l') ->
  (forall h, hi = Some h -> exists h', hi' = Some h' /\ h' <= h) ->
  let wide := mkObsArgs (a_start a) (a_end a) lo hi (a_min_sal a) (a_max_sal a)
                (a_min_odo a) (a_max_odo a) (a_limit a) (a_skip a) in
  let tight := mkObsArgs (a_start a) (a_end a) lo' hi' (a_min_sal a) (a_max_sal a)
                 (a_min_odo a) (a_max_odo a) (a_limit a) (a_skip a) in
  (forall d, matches (build_query tight) d = true ->
             matches (build_query wide) d = true)
  /\ forall p q,
       observations st wide = Ok p -> observations st tight = Ok q ->
       (count q <= count p)%nat
       /\ forall d, In d (items q) -> matches (build_query wide) d = true.
Proof.
  intros Hlo Hhi. cbv zeta.
  assert (H : forall d,
             matches (build_query (mkObsArgs (a_start a) (a_end a) lo' hi'
                        (a_min_sal a) (a_max_sal a) (a_min_odo a) (a_max_odo a)
                        (a_limit a) (a_skip a))) d = true ->
             matches (build_query (mkObsArgs (a_start a) (a_end a) lo hi
                        (a_min_sal a) (a_max_sal a) (a_min_odo a) (a_max_odo a)
                        (a_limit a) (a_skip a))) d = true).
  { intros d. rewrite !matches_spec. cbn [a_start a_end a_min_temp a_max_temp
      a_min_sal a_max_sal a_min_odo a_max_odo].
    intros [H1 [H2 H3]]. split; [exact H1|]. split; [|exact H3].
    eapply satisfies_weaken; eassumption. }
  split; [exact H|]. intros p q Hp Hq.
  apply observations_Ok in Hp, Hq. cbv zeta in Hp, Hq.
  destruct Hp as [-> _]. destruct Hq as [-> _]. cbn [count items].
  split; [apply filter_length_mono, H|].
  intros d Hd. apply cursor_incl in Hd. apply filter_In in Hd. apply H. tauto.
Qed.

Lemma tighter_temperature_bounds_match_less_witness :
  exists p q,
    observations example_store
      (mkObsArgs None None (Some 20) None None None None None None None) = Ok p
    /\ observations example_store
         (mkObsArgs None None (Some 21) (Some 22) None None None None None None) = Ok q
    /\ count p = 3%nat /\ count q = 2%nat
    /\ (count q <= count p)%nat
    /\ forall d, In d (items q) ->
         matches (build_query
                    (mkObsArgs None None (Some 20) None None None None None None None))
           d = true.
Proof.
  destruct (tighter_temperature_bounds_match_less example_store (no_filter None None)
              (Some 20) None (Some 21) (Some 22)) as [_ H].
  - intros l [= <-]. exists 21. split; [reflexivity|discriminate].
  - intros h Hh. discriminate Hh.
  - do 2 eexists. split; [reflexivity|]. split; [reflexivity|].
    split; [reflexivity|]. split; [reflexivity|].
    apply H; reflexivity.
Defined.

(** * The required-field drop *)

Lemma in_combine_seq {A : Type} (l : list A) (n k : nat) (a : A) :
  In (k, a) (combine (seq n (length l)) l)
  <-> (n <= k)%nat /\ nth_error l (k - n) = Some a.
Proof.
  revert n. induction l as [|x l IH]; intros n; simpl.
  - split; [intros []|]. intros [_ H]. destruct (k - n)%nat; discriminate.
  - rewrite IH. split.
    + intros [[= <- <-]|[H1 H2]].
      * split; [lia|]. rewrite Nat.sub_diag. reflexivity.
      * split; [lia|]. replace (k - n)%nat with (S (k - S n)) by lia. exact H2.
    + intros [H1 H2]. destruct (Nat.eq_dec n k) as [->|Hne].
      * left. rewrite Nat.sub_diag in H2. simpl in H2. congruence.
      * right. split; [lia|]. replace (k - n)%nat with (S (k - S n)) in H2 by lia.
        exact H2.
Qed.

(** X22. A source row survives the required-field drop exactly when it has a
    value in each of temperature, salinity and odo that the source has as a
    column; a missing latitude, longitude or timestamp does not matter. *)
Theorem survives_required_field_drop
  (cols : list column) (rs : list row) (label : nat) (r : row) :
  nth_error rs label = Some r ->
  let avail := available_columns (read_csv cols rs) in
  In (label, restrict avail r) (rows (after_dropna cols rs))
  <-> forall c, In c numeric_columns -> In c cols -> cell c r <> None.
Proof.
  intros Hnth. cbv zeta.
  set (avail := available_columns (read_csv cols rs)).
  unfold after_dropna, dropna. cbn [rows]. rewrite rows_select_read_csv. fold avail.
  change (numeric_available (select avail (read_csv cols rs)))
    with (numeric_available (after_dropna cols rs)).
  rewrite filter_In. cbn [snd]. rewrite forallb_forall.
  assert (Hin : In (label, restrict avail r)
                  (combine (seq 0 (length rs)) (map (restrict avail) rs))).
  { rewrite <- (length_map (restrict avail) rs). apply in_combine_seq.
    split; [lia|]. rewrite Nat.sub_0_r. rewrite nth_error_map, Hnth. reflexivity. }
  split.
  - intros [_ H] c Hn Hc E.
    specialize (H c (proj2 (numeric_available_source cols rs c) (conj Hn Hc))).
    rewrite cell_restrict in H.
    + rewrite E in H. discriminate H.
    + apply has_column_In. unfold avail, available_columns. apply filter_In. split.
      * unfold numeric_columns in Hn. unfold required_columns. simpl in *. intuition.
      * apply has_column_In. unfold read_csv. simpl. right. exact Hc.
  - intros H. split; [exact Hin|]. intros c Hc.
    apply numeric_available_source in Hc. destruct Hc as [Hn Hc].
    rewrite cell_restrict.
    + specialize (H c Hn Hc). destruct (cell c r); [reflexivity|congruence].
    + apply has_column_In. unfold avail, available_columns. apply filter_In. split.
      * unfold numeric_columns in Hn. unfold required_columns. simpl in *. intuition.
      * apply has_column_In. unfold read_csv. simpl. right. exact Hc.
Qed.

Lemma survives_required_field_drop_witness :
  In (0%nat, restrict (available_columns (read_csv [latitude; temperature] six_rows))
               missing_reading)
    (rows (after_dropna [latitude; temperature] six_rows))
  <-> forall c, In c numeric_columns -> In c [latitude; temperature] ->
                cell c missing_reading <> None.
Proof.
  apply (survives_required_field_drop [latitude; temperature] six_rows 0 missing_reading).
  reflexivity.
Defined.

(** * Ingestion, whatever the test *)

Lemma ingest_rows (mask : list column -> DataFrame -> row -> bool)
  (cols : list column) (rs : list row) :
  let df := after_dropna cols rs in
  exists cleaned,
    cleaned_df (ingest mask cols rs) = Some cleaned
    /\ collection (ingest mask cols rs) = map snd (rows cleaned)
    /\ rows cleaned
       = filter (fun lr => mask (numeric_available df) df (snd lr)) (rows df)
    /\ original_count (ingest mask cols rs) = Z.of_nat (length rs)
    /\ removed_count (ingest mask cols rs)
       = (Z.of_nat (length rs) - Z.of_nat (length (rows cleaned)))%Z.
Proof.
  cbv zeta. eexists. split; [reflexivity|]. split; [reflexivity|].
  split; [reflexivity|].
  unfold ingest. cbn [original_count removed_count]. rewrite len_read_csv.
  split; reflexivity.
Qed.

Lemma rows_after_dropna (cols : list column) (rs : list row) :
  let df := after_dropna cols rs in
  rows df
  = filter (fun lr => forallb (fun c => notna (cell c (snd lr)))
                        (numeric_available df))
      (combine (seq 0 (length rs))
         (map (restrict (available_columns (read_csv cols rs))) rs)).
Proof.
  cbv zeta. unfold after_dropna, dropna. cbn [rows].
  rewrite rows_select_read_csv. reflexivity.
Qed.

(** X27. The two readings of the cleaning pass are instances of [ingest],
    and whatever the test on the z-scores computes (so also in double
    precision, for every order of summation): the original count is the
    number of source rows, the removed count lies between 0 and it, original
    = removed + remaining; the stored records are a selection of the source
    rows restricted to the available columns, in source order; and every
    stored record has a value in each of temperature, salinity and odo that
    the source has as a column. *)
Theorem ingestion_whatever_the_test
  (mask : list column -> DataFrame -> row -> bool)
  (cols : list column) (rs : list row) :
  let st := ingest mask cols rs in
  let avail := available_columns (read_csv cols rs) in
  (load_and_clean_data cols rs = ingest zscore_mask cols rs
   /\ forall sum,
        Binary64.load_and_clean_data sum cols rs
        = ingest (Binary64.zscore_mask sum) cols rs)
  /\ original_count st = Z.of_nat (length rs)
  /\ (0 <= removed_count st <= original_count st)%Z
  /\ (original_count st = removed_count st + rows_remaining (summary st))%Z
  /\ (exists cleaned keep,
        cleaned_df st = Some cleaned
        /\ rows cleaned
           = filter keep (combine (seq 0 (length rs)) (map (restrict avail) rs))
        /\ collection st = map snd (rows cleaned))
  /\ (forall c r,
        In c numeric_columns -> In c cols -> In r (collection st) ->
        exists x, cell c r = Some x).
Proof.
  cbv zeta. split; [split; [reflexivity|intros sum; reflexivity]|].
  destruct (ingest_rows mask cols rs) as [cleaned [Hdf [Hcoll [Hrows [Ho Hr]]]]].
  cbv zeta in Hrows.
  assert (Hlen : (length (rows cleaned) <= length rs)%nat).
  { rewrite Hrows, rows_after_dropna.
    rewrite !filter_length_le, length_combine, length_seq, length_map. lia. }
  split; [exact Ho|]. split; [rewrite Hr, Ho; lia|]. split.
  { unfold summary. rewrite Hdf. cbn [rows_remaining]. unfold len.
    rewrite Hr, Ho. lia. }
  split.
  { exists cleaned. eexists. split; [exact Hdf|]. split; [|exact Hcoll].
    rewrite Hrows, rows_after_dropna. apply filter_filter_andb. }
  intros c r Hn Hc Hin. rewrite Hcoll in Hin. apply in_map_iff in Hin.
  destruct Hin as [lr [<- Hlr]]. rewrite Hrows in Hlr.
  apply filter_In in Hlr. destruct Hlr as [Hlr _].
  apply (after_dropna_cells cols rs lr Hlr c).
  apply numeric_available_source. split; assumption.
Qed.
